(** * Dummy devices of DySART: Fizzer, Fizzmeter, Carbonator

    A shallow embedding of [dysart/measurement/dummy_devices.py].

    Python numbers are modelled as real numbers ([R]): arithmetic is exact and
    [np.exp] is the real exponential.  The doubles of Python round each
    result, so an equation proved here holds of the program up to rounding,
    and the bounds stated of computed values are the ones that rounding
    keeps: they are not strict.  Where rounding decides, as at the ends of
    the fizziness curve, the arithmetic is done in binary64
    ([shifted_logistic_binary64]).  An instance is a class tag with its
    attribute dictionary ([__dict__]), instances live in a heap and are named
    by their location, and every method is a computation in a state and
    exception monad, so that a mutation made before an exception is raised
    stays in the heap as it does in Python.  [time.time()] and the Gaussian
    source behind [np.random.normal] are tapes carried by the state: the n-th
    reading of the clock and the n-th standard normal sample.  The state also
    carries the longest delay that the operating system takes from
    [time.sleep]. *)

From Stdlib Require Import Reals Lra Floats.
From stdpp Require Import gmap strings list.

Local Open Scope R_scope.

(** ** Exceptions, objects and the heap *)

(** The built-in exceptions the module can raise.  [SystemError] stands for a
    reference to a location that holds no object, which no Python program can
    form. *)
Inductive exn : Set :=
| AttributeError
| TypeError
| ValueError
| ZeroDivisionError
| OverflowError
| OSError
| SystemError.

(** The classes of the module. *)
Inductive cls : Set :=
| Device
| Fizzer
| Fizzmeter
| Carbonator
| Buzzer
| BuzzMeter.

#[global] Instance cls_eq_dec : EqDecision cls.
Proof. solve_decision. Defined.

Record Object : Type := mkObject {
  ob_class : cls;
  ob_dict : gmap string R
}.

(** A location of the heap: the index of the instance. *)
Abbreviation loc := nat (only parsing).

Record State : Type := mkState {
  heap : list Object;
  clock : nat -> R;             (* the n-th reading of [time.time()] *)
  ticks : nat;                  (* readings made so far *)
  standard_normal : nat -> R;   (* the n-th standard normal sample *)
  draws : nat;                  (* samples drawn so far *)
  os_sleep_max : R              (* the longest delay the operating system takes *)
}.

(** The empty heap, before any reading or draw. *)
Definition init (clock standard_normal : nat -> R) (os_sleep_max : R) : State :=
  mkState [] clock 0 standard_normal 0 os_sleep_max.

Definition with_heap (h : list Object) (s : State) : State :=
  mkState h (clock s) (ticks s) (standard_normal s) (draws s) (os_sleep_max s).

(** One more reading of the clock, one more sample drawn. *)
Definition tick (s : State) : State :=
  mkState (heap s) (clock s) (S (ticks s)) (standard_normal s) (draws s)
          (os_sleep_max s).
Definition drew (s : State) : State :=
  mkState (heap s) (clock s) (ticks s) (standard_normal s) (S (draws s))
          (os_sleep_max s).

(** ** The state and exception monad *)

Definition M (A : Type) : Type := State -> (exn + A) * State.

Definition ret {A : Type} (a : A) : M A := fun s => (inr a, s).

Definition raise {A : Type} (e : exn) : M A := fun s => (inl e, s).

Definition bind {A B : Type} (m : M A) (f : A -> M B) : M B :=
  fun s =>
    match m s with
    | (inr a, s') => f a s'
    | (inl e, s') => (inl e, s')
    end.

Notation "'let!' x ':=' m 'in' k" := (bind m (fun x => k))
  (at level 10, x name, m at level 100, k at level 200, only parsing).
Notation "'do!' m 'in' k" := (bind m (fun _ => k))
  (at level 10, m at level 100, k at level 200, only parsing).

(** Outcome and final state of a computation. *)
Definition outcome {A : Type} (m : M A) (s : State) : exn + A := fst (m s).
Definition final {A : Type} (m : M A) (s : State) : State := snd (m s).

(** ** Attribute access and allocation *)

(** [o.name] *)
Definition getattr (self : loc) (name : string) : M R :=
  fun s =>
    match heap s !! self with
    | Some o =>
        match ob_dict o !! name with
        | Some v => (inr v, s)
        | None => (inl AttributeError, s)
        end
    | None => (inl SystemError, s)
    end.

(** The heap after [o.name = v]. *)
Definition store (self : loc) (name : string) (v : R) (s : State) : State :=
  with_heap
    (alter (fun o => mkObject (ob_class o) (<[name := v]> (ob_dict o))) self (heap s))
    s.

(** [o.name = v] *)
Definition setattr (self : loc) (name : string) (v : R) : M unit :=
  fun s =>
    match heap s !! self with
    | Some _ => (inr tt, store self name v s)
    | None => (inl SystemError, s)
    end.

(** [type(o)] *)
Definition type_of (self : loc) : M cls :=
  fun s =>
    match heap s !! self with
    | Some o => (inr (ob_class o), s)
    | None => (inl SystemError, s)
    end.

(** [object.__new__(c)]: a fresh instance with an empty [__dict__]. *)
Definition allocate (c : cls) (s : State) : State :=
  with_heap (heap s ++ [mkObject c ∅]) s.

Definition object_new (c : cls) : M loc :=
  fun s => (inr (length (heap s)), allocate c s).

(** [x / y] on Python numbers. *)
Definition truediv (x y : R) : M R :=
  if Req_dec_T y 0 then raise ZeroDivisionError else ret (x / y).

(** ** Module level *)

Definition day_sec : R := 60 * 60 * 24.

(** [np.exp], as the function over the reals that it rounds. *)
Definition np_exp (x : R) : R := exp x.

(** The denominator [1 + np.exp(-x)] is at least 1, so the division cannot
    fail. *)
Definition shifted_logistic (x : R) : R := 2 / (1 + np_exp (- x)) - 1.

(** The same arithmetic in binary64, as Python does it: [e] is the double
    that [np.exp(-x)] has returned, and the sum, the quotient and the
    difference are each rounded to the nearest double. *)
Definition shifted_logistic_binary64 (e : float) : float :=
  (2 / (1 + e) - 1)%float.

(** The doubles nearest to [e^-37], [e^-40] and [e^40], which [np.exp]
    returns at -37.0, -40.0 and 40.0.  The first two are below [2^-53],
    half the distance from 1.0 to the next double. *)
Definition exp_minus_37 : float := 0x1.898471fca6055p-54%float.
Definition exp_minus_40 : float := 0x1.39792499b1a24p-58%float.
Definition exp_40 : float := 0x1.a220d397972ebp+57%float.

(** What an attribute holds, if the object exists and the attribute is set. *)
Definition attr (s : State) (l : loc) (name : string) : option R :=
  match heap s !! l with
  | Some o => ob_dict o !! name
  | None => None
  end.

Definition class_at (s : State) (l : loc) : option cls :=
  ob_class <$> heap s !! l.

(** ** The services of the module: time and noise *)

(** [time.time()] *)
Definition time_time : M R :=
  fun s => (inr (clock s (ticks s)), tick s).

(** The longest delay [time.sleep] can convert, in seconds: the delay is
    turned into a signed 64-bit count of nanoseconds, [2^63] of them at
    most. *)
Definition sleep_max : R := 9223372036854775808 / 1000000000.

(** [time.sleep(secs)]: the delay is first converted to nanoseconds, which
    is an [OverflowError] when it does not fit, whatever its sign; a
    negative delay that fits is a [ValueError]; the others are handed to the
    operating system, and one that it refuses is an [OSError] (Linux
    refuses a delay that ends after the [2^63] ns of its monotonic clock).
    The time that passes shows in the later readings of the clock. *)
Definition time_sleep (secs : R) : M unit :=
  fun s =>
    if Rlt_dec sleep_max (Rabs secs) then raise OverflowError s
    else if Rlt_dec secs 0 then raise ValueError s
    else if Rlt_dec (os_sleep_max s) secs then raise OSError s
    else ret tt s.

(** The delays for which [time.sleep] returns: not negative, short of the
    bound of the conversion, and taken by the operating system. *)
Definition sleeps (s : State) (secs : R) : Prop :=
  0 <= secs < sleep_max /\ secs <= os_sleep_max s.

(** [np.random.normal(mu, scale)]: a negative scale is a [ValueError]. *)
Definition np_random_normal (mu scale : R) : M R :=
  if Rlt_dec scale 0 then raise ValueError
  else fun s => (inr (mu + scale * standard_normal s (draws s)), drew s).

(** *** class Device *)

Definition Device_refresh (self : loc) (t_new : R) : M unit :=
  setattr self "cal_time" t_new.

(** *** refresh of the subclasses *)

Definition Fizzer_refresh (self : loc) : M unit :=
  let! t_new := time_time in
  Device_refresh self t_new.

Definition Fizzmeter_refresh (self : loc) : M unit :=
  let! t_new := time_time in
  let! cal_time := getattr self "cal_time" in
  let dt := t_new - cal_time in
  let! bias := getattr self "bias" in
  let! decal_rate := getattr self "decal_rate" in
  let! drift := np_random_normal 0 (dt * decal_rate) in
  do! setattr self "bias" (bias + drift) in
  Device_refresh self t_new.

Definition Carbonator_refresh (self : loc) : M unit :=
  let! t_new := time_time in
  Device_refresh self t_new.

(** [self.refresh()], resolved on the class of [self].  [Device], [Buzzer]
    and [BuzzMeter] have only [Device.refresh(self, t_new)], which the call
    gives no [t_new]. *)
Definition call_refresh (self : loc) : M unit :=
  let! c := type_of self in
  match c with
  | Fizzer => Fizzer_refresh self
  | Fizzmeter => Fizzmeter_refresh self
  | Carbonator => Carbonator_refresh self
  | Device | Buzzer | BuzzMeter => raise TypeError
  end.

Definition Device___init__ (self : loc) (decal_rate cal_delay : R) : M unit :=
  do! setattr self "decal_rate" decal_rate in
  do! setattr self "cal_delay" cal_delay in
  call_refresh self.

(** *** class Fizzer *)

Definition Fizzer___init__ (self : loc) (carbonation time_constant_days : R) : M unit :=
  do! setattr self "carbonation" carbonation in
  do! setattr self "time_constant_sec" (time_constant_days * day_sec) in
  Device___init__ self 0 1.

Definition Fizzer_add_carbonation (self : loc) (carbonation : R) : M unit :=
  let! old := getattr self "carbonation" in
  do! setattr self "carbonation" (old + carbonation) in
  call_refresh self.

Definition Fizzer_get_carbonation (self : loc) : M R :=
  let! t_new := time_time in
  let! cal_time := getattr self "cal_time" in
  let dt := t_new - cal_time in
  let! old := getattr self "carbonation" in
  let! time_constant_sec := getattr self "time_constant_sec" in
  let! q := truediv (- dt) time_constant_sec in
  let carbonation := old * np_exp q in
  do! setattr self "carbonation" carbonation in
  do! Device_refresh self t_new in
  ret carbonation.

Definition Fizzer_get_fizziness (self : loc) : M R :=
  let! carbonation := Fizzer_get_carbonation self in
  let fizziness := shifted_logistic carbonation in
  ret fizziness.

(** *** class Fizzmeter *)

Definition Fizzmeter___init__ (self : loc)
    (response_delay uncertainty decal_rate_days : R) : M unit :=
  do! setattr self "response_delay" response_delay in
  do! setattr self "uncertainty" uncertainty in
  do! setattr self "bias" 0 in
  let decal_rate_sec := decal_rate_days * day_sec in
  Device___init__ self decal_rate_sec 1.

Definition Fizzmeter_measure (self fizzer : loc) : M R :=
  let! response_delay := getattr self "response_delay" in
  do! time_sleep response_delay in
  do! call_refresh self in
  let! uncertainty := getattr self "uncertainty" in
  let! noise := np_random_normal 0 uncertainty in
  let! fizziness := getattr fizzer "fizziness" in
  let! bias := getattr self "bias" in
  ret (fizziness + bias + noise).

Definition Fizzmeter_calibrate (self : loc) : M unit :=
  let! cal_delay := getattr self "cal_delay" in
  do! time_sleep cal_delay in
  do! setattr self "bias" 0 in
  call_refresh self.

(** *** class Carbonator *)

Definition Carbonator___init__ (self : loc) (response_delay uncertainty : R) : M unit :=
  do! Device___init__ self (1 / 1000) 1 in
  do! setattr self "response_delay" response_delay in
  setattr self "uncertainty" uncertainty.

Definition Carbonator_get_uncertainty (self : loc) : M R :=
  do! call_refresh self in
  getattr self "uncertainty".

Definition Carbonator_carbonate (self fizzer : loc) (carbonation : R) : M unit :=
  let! uncertainty := Carbonator_get_uncertainty self in
  let! noise := np_random_normal 0 uncertainty in
  ret tt.

(** *** class Buzzer, class BuzzMeter *)

Definition Buzzer___init__ (self : loc) : M unit := ret tt.

Definition Buzzer_get_buzziness (self : loc) : M unit := ret tt.

Definition BuzzMeter___init__ (self : loc) : M unit := ret tt.

(** ** The public interface *)

(** What a call returns: [None], a number, or a new instance. *)
Inductive value : Type :=
| VNone
| VNum (x : R)
| VRef (l : loc).

(** The calls a client of the module can make: the six classes called as
    constructors (with their arguments given in full) and the methods,
    resolved on the class of the receiver. *)
Inductive Call : Type :=
| new_Device (decal_rate cal_delay : R)
| new_Fizzer (carbonation time_constant_days : R)
| new_Fizzmeter (response_delay uncertainty decal_rate_days : R)
| new_Carbonator (response_delay uncertainty : R)
| new_Buzzer
| new_BuzzMeter
| refresh (self : loc)
| refresh_at (self : loc) (t_new : R)
| add_carbonation (self : loc) (carbonation : R)
| get_carbonation (self : loc)
| get_fizziness (self : loc)
| measure (self fizzer : loc)
| calibrate (self : loc)
| get_uncertainty (self : loc)
| carbonate (self fizzer : loc) (carbonation : R)
| get_buzziness (self : loc).

(** [C(args)]: allocate, run [__init__], hand out the instance. *)
Definition construct (c : cls) (init_ : loc -> M unit) : M value :=
  let! self := object_new c in
  do! init_ self in
  ret (VRef self).

Definition returning_None (m : M unit) : M value :=
  do! m in ret VNone.

Definition returning_number (m : M R) : M value :=
  let! x := m in ret (VNum x).

(** A method of one class only: any other receiver has no such attribute. *)
Definition method_of (c : cls) (self : loc) (m : M value) : M value :=
  let! c' := type_of self in
  if decide (c' = c) then m else raise AttributeError.

Definition invoke (call : Call) : M value :=
  match call with
  | new_Device decal_rate cal_delay =>
      construct Device (fun self => Device___init__ self decal_rate cal_delay)
  | new_Fizzer carbonation time_constant_days =>
      construct Fizzer (fun self => Fizzer___init__ self carbonation time_constant_days)
  | new_Fizzmeter response_delay uncertainty decal_rate_days =>
      construct Fizzmeter
        (fun self => Fizzmeter___init__ self response_delay uncertainty decal_rate_days)
  | new_Carbonator response_delay uncertainty =>
      construct Carbonator (fun self => Carbonator___init__ self response_delay uncertainty)
  | new_Buzzer => construct Buzzer Buzzer___init__
  | new_BuzzMeter => construct BuzzMeter BuzzMeter___init__
  | refresh self => returning_None (call_refresh self)
  | refresh_at self t_new =>
      let! c := type_of self in
      match c with
      | Device | Buzzer | BuzzMeter => returning_None (Device_refresh self t_new)
      | Fizzer | Fizzmeter | Carbonator => raise TypeError
      end
  | add_carbonation self carbonation =>
      method_of Fizzer self (returning_None (Fizzer_add_carbonation self carbonation))
  | get_carbonation self =>
      method_of Fizzer self (returning_number (Fizzer_get_carbonation self))
  | get_fizziness self =>
      method_of Fizzer self (returning_number (Fizzer_get_fizziness self))
  | measure self fizzer =>
      method_of Fizzmeter self (returning_number (Fizzmeter_measure self fizzer))
  | calibrate self =>
      method_of Fizzmeter self (returning_None (Fizzmeter_calibrate self))
  | get_uncertainty self =>
      method_of Carbonator self (returning_number (Carbonator_get_uncertainty self))
  | carbonate self fizzer carbonation =>
      method_of Carbonator self
        (returning_None (Carbonator_carbonate self fizzer carbonation))
  | get_buzziness self =>
      method_of Buzzer self (returning_None (Buzzer_get_buzziness self))
  end.

(** A client program: calls made one after the other, an exception of one
    call caught before the next. *)
Definition run (prog : list Call) (s : State) : State :=
  fold_left (fun s call => final (invoke call) s) prog s.

(** A Fizzer as the public interface can make it: an instance of the class
    found in the heap after some client program run from the empty heap. *)
Definition public_Fizzer (o : Object) : Prop :=
  ob_class o = Fizzer /\
  exists (clock standard_normal : nat -> R) (limit : R)
         (prog : list Call) (l : loc),
    heap (run prog (init clock standard_normal limit)) !! l = Some o.

(** The call takes its time from [time.time()]; [refresh_at] stores the time
    its caller passes. *)
Definition from_time_source (call : Call) : Prop :=
  match call with
  | refresh_at _ _ => False
  | _ => True
  end.

(** [cal_time], once set, stays set and does not decrease. *)
Definition cal_time_le (before after : option R) : Prop :=
  match before, after with
  | None, _ => True
  | Some x, Some y => x <= y
  | Some _, None => False
  end.

(** The sleep and the two noise draws of [Fizzmeter.measure] get arguments
    that they take: the delay is one for which [time.sleep] returns, and
    neither deviation is negative. *)
Definition meter_valid (s : State) (meter : loc) : Prop :=
  (forall rd, attr s meter "response_delay" = Some rd -> sleeps s rd) /\
  (forall u, attr s meter "uncertainty" = Some u -> 0 <= u) /\
  (forall ct dr, attr s meter "cal_time" = Some ct ->
                 attr s meter "decal_rate" = Some dr ->
                 0 <= (clock s (ticks s) - ct) * dr).

(** ** Invariants of the heap *)

(** Every computation keeps [I]. *)
Definition preserves (I : State -> Prop) {A : Type} (m : M A) : Prop :=
  forall s, I s -> I (final m s).

(** [I] survives a reading of the clock, a draw, an allocation and an
    assignment to any attribute whose name is [writable]. *)
Class Stable (I : State -> Prop) (writable : string -> Prop) : Prop := {
  stable_tick : forall s, I s -> I (tick s);
  stable_drew : forall s, I s -> I (drew s);
  stable_allocate : forall c s, I s -> I (allocate c s);
  stable_store : forall self n v s, writable n -> I s -> I (store self n v s)
}.

(** No instance has an attribute [fizziness]. *)
Definition no_fizziness (s : State) : Prop :=
  forall l, attr s l "fizziness" = None.

(** The clock never goes back. *)
Definition monotone (clock : nat -> R) : Prop :=
  forall n, clock n <= clock (S n).

(** Every [cal_time] in the heap is at most the next reading of the clock. *)
Definition bounded (s : State) : Prop :=
  forall l v, attr s l "cal_time" = Some v -> v <= clock s (ticks s).

(** [s] comes after [s0], with at least [bound] readings made: each
    [cal_time] is what it was in [s0] or a reading made since [s0]. *)
Definition since (s0 : State) (bound : nat) (s : State) : Prop :=
  clock s = clock s0 /\
  (ticks s0 <= ticks s)%nat /\
  (bound <= ticks s)%nat /\
  forall l,
    attr s l "cal_time" = attr s0 l "cal_time" \/
    exists j, (ticks s0 <= j < ticks s)%nat /\
              attr s l "cal_time" = Some (clock s0 j).

(** The instance a method call is made on; a constructor call has none. *)
Definition receiver (call : Call) : option loc :=
  match call with
  | new_Device _ _ | new_Fizzer _ _ | new_Fizzmeter _ _ _
  | new_Carbonator _ _ | new_Buzzer | new_BuzzMeter => None
  | refresh self | refresh_at self _ | add_carbonation self _
  | get_carbonation self | get_fizziness self | measure self _
  | calibrate self | get_uncertainty self | carbonate self _ _
  | get_buzziness self => Some self
  end.

(** The object at [l] is [o]. *)
Definition kept (l : loc) (o : Object) (s : State) : Prop :=
  heap s !! l = Some o.

(** The attribute [n] of the instance at [l] holds [v]. *)
Definition holds (l : loc) (n : string) (v : R) (s : State) : Prop :=
  attr s l n = Some v.

(** The attributes that the methods assign; the others are assigned by the
    constructors only. *)
Definition mutable (n : string) : Prop :=
  n = "carbonation" \/ n = "bias" \/ n = "cal_time".

(** Every [cal_time] in the heap is a reading of the clock already made. *)
Definition stamped (s : State) : Prop :=
  forall l v, attr s l "cal_time" = Some v ->
    exists j, (j < ticks s)%nat /\ v = clock s j.

(** No Fizzmeter has a [cal_time]. *)
Definition uncalibrated_meters (s : State) : Prop :=
  forall l, class_at s l = Some Fizzmeter -> attr s l "cal_time" = None.

(** No Fizzmeter has a [cal_time], and the instance at [self] is of class
    [c]. *)
Definition of_class (c : cls) (self : loc) (s : State) : Prop :=
  uncalibrated_meters s /\ class_at s self = Some c.

(** ** Sample states *)

(** A clock that reads the seconds 0, 1, 2, ... and one that reads whole
    days; samples that are all 1. *)
Definition seconds_clock (n : nat) : R := INR n.
Definition days_clock (n : nat) : R := INR n * day_sec.
Definition unit_samples (n : nat) : R := 1.

(** The longest delay that Linux takes after a day of running. *)
Definition day_up : R := 9223372036 - 86400.

(** A Fizzmeter as [__init__] would leave it if [cal_time] had been set:
    bias 3 after some drift, last calibrated at time 0, read at time 1. *)
Definition drifted_meter : State :=
  store 0 "cal_time" 0
    (store 0 "cal_delay" 1
       (store 0 "decal_rate" (1 * day_sec)
          (store 0 "bias" 3
             (store 0 "uncertainty" (1 / 10)
                (store 0 "response_delay" (1 / 2)
                   (allocate Fizzmeter (init (fun _ => 1) unit_samples day_up))))))).

(** [Fizzer(carbonation=1, time_constant_days=1)], made at day 0 and next
    read at day 1. *)
Abbreviation day_old_fizzer :=
  (final (invoke (new_Fizzer 1 1)) (init days_clock unit_samples day_up)).

(** The same Fizzer under a clock that stands still. *)
Abbreviation still_fizzer :=
  (final (invoke (new_Fizzer 1 1)) (init (fun _ => 1) unit_samples day_up)).

(** A Carbonator at location 0 and a Fizzer at location 1. *)
Abbreviation carbonator_and_fizzer :=
  (run [new_Carbonator (1 / 2) (1 / 100); new_Fizzer 1 1]
      (init seconds_clock unit_samples day_up)).

(** A Fizzer at location 0, and at location 1 the Fizzmeter that
    [Fizzmeter(response_delay=-1, uncertainty=0.1, decal_rate_days=1)] leaves
    behind when it raises. *)
Abbreviation fizzer_and_negative_meter :=
  (run [new_Fizzer 1 1; new_Fizzmeter (-1) (1 / 10) 1]
      (init seconds_clock unit_samples day_up)).

(** A Fizzer at location 0, and at location 1 a Fizzmeter with the default
    arguments whose [cal_time] has been set by hand. *)
Abbreviation fizzer_and_meter :=
  (store 1 "cal_time" 0
    (run [new_Fizzer 1 1; new_Fizzmeter (1 / 2) (1 / 10) 1]
         (init seconds_clock unit_samples day_up))).

(** A Buzzer whose inherited [refresh] is given the time 5, and then 3. *)
Abbreviation buzzer_at_5 :=
  (run [new_Buzzer; refresh_at 0 5] (init seconds_clock unit_samples day_up)).

Abbreviation buzzer_at_3 :=
  (final (invoke (refresh_at 0 3)) buzzer_at_5).

(** The Fizzer and the Fizzmeter of [fizzer_and_meter], the Fizzer given an
    attribute [fizziness] by hand. *)
Abbreviation fizzy_fizzer_and_meter :=
  (store 0 "fizziness" (1 / 2) fizzer_and_meter).

(** [Fizzer(carbonation=1, time_constant_days=0)]. *)
Abbreviation instant_fizzer :=
  (final (invoke (new_Fizzer 1 0)) (init seconds_clock unit_samples day_up)).

(** [Fizzer(carbonation=1, time_constant_days=1)] under the clock of the
    seconds. *)
Abbreviation new_fizzer :=
  (run [new_Fizzer 1 1] (init seconds_clock unit_samples day_up)).

(** The Fizzmeter of [drifted_meter], calibrated at the time the clock
    reads. *)
Abbreviation calibrated_meter :=
  (store 0 "cal_time" 1 drifted_meter).

(** ** Reading the heap *)

Lemma attr_tick s l n : attr (tick s) l n = attr s l n.
Proof. reflexivity. Qed.

Lemma attr_drew s l n : attr (drew s) l n = attr s l n.
Proof. reflexivity. Qed.

Lemma class_at_tick s l : class_at (tick s) l = class_at s l.
Proof. reflexivity. Qed.

Lemma class_at_drew s l : class_at (drew s) l = class_at s l.
Proof. reflexivity. Qed.

Lemma class_at_store s self n v l : class_at (store self n v s) l = class_at s l.
Proof.
  unfold class_at, store, with_heap; cbn [heap].
  destruct (decide (self = l)) as [->|Hne].
  - rewrite list_lookup_alter_eq. by destruct (heap s !! l).
  - by rewrite list_lookup_alter_ne.
Qed.

Lemma attr_store s self n v l n' :
  attr (store self n v s) l n' =
  if decide (l = self /\ n' = n) then (fun _ => v) <$> class_at s self
  else attr s l n'.
Proof.
  unfold attr, class_at, store, with_heap; cbn [heap].
  destruct (decide (self = l)) as [->|Hne].
  - rewrite list_lookup_alter_eq.
    destruct (heap s !! l) as [o|]; cbn.
    + destruct (decide (n = n')) as [->|Hn].
      * rewrite decide_True by done. by rewrite lookup_insert_eq.
      * rewrite decide_False by (intros [_ ?]; congruence).
        by rewrite lookup_insert_ne.
    + by case_decide.
  - rewrite list_lookup_alter_ne by done.
    rewrite decide_False by (intros [? _]; congruence). done.
Qed.

Lemma attr_class_at s l n v : attr s l n = Some v -> is_Some (class_at s l).
Proof.
  unfold attr, class_at. destruct (heap s !! l); [eauto | discriminate].
Qed.

Lemma class_at_allocate s c l :
  class_at (allocate c s) l =
  if decide (l = length (heap s)) then Some c else class_at s l.
Proof.
  unfold class_at, allocate, with_heap; cbn [heap]. case_decide as Hl.
  - subst l. rewrite lookup_app_r by lia. by rewrite Nat.sub_diag.
  - destruct (decide (l < length (heap s))%nat) as [Hlt|Hge].
    + by rewrite lookup_app_l.
    + rewrite !lookup_ge_None_2; [done | lia |].
      rewrite length_app; cbn. lia.
Qed.

Lemma attr_allocate s c l n : attr (allocate c s) l n = attr s l n.
Proof.
  unfold attr, allocate, with_heap; cbn [heap].
  destruct (decide (l < length (heap s))%nat) as [Hlt|Hge].
  - by rewrite lookup_app_l.
  - rewrite (lookup_ge_None_2 (heap s)) by lia.
    destruct (decide (l = length (heap s))) as [->|Hne].
    + rewrite lookup_app_r by lia. by rewrite Nat.sub_diag.
    + rewrite lookup_ge_None_2; [done|]. rewrite length_app; cbn. lia.
Qed.

Lemma class_at_fresh s : class_at s (length (heap s)) = None.
Proof. unfold class_at. by rewrite lookup_ge_None_2. Qed.

Lemma attr_fresh s n : attr s (length (heap s)) n = None.
Proof. unfold attr. by rewrite lookup_ge_None_2. Qed.

Lemma attr_stored s l n v : attr s l n = Some v -> heap (store l n v s) = heap s.
Proof.
  unfold attr, store, with_heap; cbn [heap]. intros H.
  destruct (heap s !! l) as [o|] eqn:Ho; [|discriminate].
  apply list_eq; intros j. rewrite list_lookup_alter.
  case_decide as Hj; [subst j|done].
  rewrite Ho; cbn. destruct o as [c d]; cbn in *. by rewrite insert_id.
Qed.

(** The tapes and their positions under the writes to the heap. *)
Lemma clock_store self n v s : clock (store self n v s) = clock s.
Proof. reflexivity. Qed.
Lemma clock_allocate c s : clock (allocate c s) = clock s.
Proof. reflexivity. Qed.
Lemma clock_tick s : clock (tick s) = clock s.
Proof. reflexivity. Qed.
Lemma clock_drew s : clock (drew s) = clock s.
Proof. reflexivity. Qed.
Lemma ticks_store self n v s : ticks (store self n v s) = ticks s.
Proof. reflexivity. Qed.
Lemma ticks_allocate c s : ticks (allocate c s) = ticks s.
Proof. reflexivity. Qed.
Lemma ticks_tick s : ticks (tick s) = S (ticks s).
Proof. reflexivity. Qed.
Lemma ticks_drew s : ticks (drew s) = ticks s.
Proof. reflexivity. Qed.
Lemma samples_store self n v s : standard_normal (store self n v s) = standard_normal s.
Proof. reflexivity. Qed.
Lemma samples_allocate c s : standard_normal (allocate c s) = standard_normal s.
Proof. reflexivity. Qed.
Lemma samples_tick s : standard_normal (tick s) = standard_normal s.
Proof. reflexivity. Qed.
Lemma samples_drew s : standard_normal (drew s) = standard_normal s.
Proof. reflexivity. Qed.
Lemma draws_store self n v s : draws (store self n v s) = draws s.
Proof. reflexivity. Qed.
Lemma draws_allocate c s : draws (allocate c s) = draws s.
Proof. reflexivity. Qed.
Lemma draws_tick s : draws (tick s) = draws s.
Proof. reflexivity. Qed.
Lemma draws_drew s : draws (drew s) = S (draws s).
Proof. reflexivity. Qed.
Lemma os_sleep_max_store self n v s : os_sleep_max (store self n v s) = os_sleep_max s.
Proof. reflexivity. Qed.
Lemma os_sleep_max_allocate c s : os_sleep_max (allocate c s) = os_sleep_max s.
Proof. reflexivity. Qed.
Lemma os_sleep_max_tick s : os_sleep_max (tick s) = os_sleep_max s.
Proof. reflexivity. Qed.
Lemma os_sleep_max_drew s : os_sleep_max (drew s) = os_sleep_max s.
Proof. reflexivity. Qed.

Create Rewrite HintDb tapes.

#[global] Hint Rewrite
  clock_store clock_allocate clock_tick clock_drew
  ticks_store ticks_allocate ticks_tick ticks_drew
  samples_store samples_allocate samples_tick samples_drew
  draws_store draws_allocate draws_tick draws_drew
  os_sleep_max_store os_sleep_max_allocate os_sleep_max_tick os_sleep_max_drew
  : tapes.

(** ** Running a computation step by step *)

Lemma run_bind {A B : Type} (m : M A) (f : A -> M B) s a s1 :
  m s = (inr a, s1) -> bind m f s = f a s1.
Proof. unfold bind. by intros ->. Qed.

Lemma run_bind_raise {A B : Type} (m : M A) (f : A -> M B) s e s1 :
  m s = (inl e, s1) -> bind m f s = (inl e, s1).
Proof. unfold bind. by intros ->. Qed.

Lemma run_getattr s l n v : attr s l n = Some v -> getattr l n s = (inr v, s).
Proof.
  unfold attr, getattr. destruct (heap s !! l); [|discriminate]. by intros ->.
Qed.

Lemma run_getattr_missing s l n c :
  class_at s l = Some c -> attr s l n = None ->
  getattr l n s = (inl AttributeError, s).
Proof.
  unfold attr, class_at, getattr. destruct (heap s !! l); [|discriminate].
  by intros _ ->.
Qed.

Lemma run_getattr_dangling s l n :
  class_at s l = None -> getattr l n s = (inl SystemError, s).
Proof.
  unfold class_at, getattr. by destruct (heap s !! l).
Qed.

Lemma run_setattr s l n v c :
  class_at s l = Some c -> setattr l n v s = (inr tt, store l n v s).
Proof.
  unfold class_at, setattr. by destruct (heap s !! l).
Qed.

Lemma run_type_of s l c : class_at s l = Some c -> type_of l s = (inr c, s).
Proof.
  unfold class_at, type_of. destruct (heap s !! l); [|discriminate].
  cbn. by intros [= ->].
Qed.

Lemma run_time_sleep s secs : sleeps s secs -> time_sleep secs s = (inr tt, s).
Proof.
  unfold time_sleep. intros [[H0 H1] H2].
  destruct (Rlt_dec sleep_max (Rabs secs)) as [Hbig|_].
  { rewrite Rabs_pos_eq in Hbig by done. lra. }
  destruct (Rlt_dec secs 0); [lra|].
  destruct (Rlt_dec (os_sleep_max s) secs); [lra | done].
Qed.

Lemma run_time_sleep_negative s secs :
  - sleep_max <= secs < 0 -> time_sleep secs s = (inl ValueError, s).
Proof.
  unfold time_sleep. intros [H0 H1].
  destruct (Rlt_dec sleep_max (Rabs secs)) as [Hbig|_].
  - rewrite Rabs_left in Hbig by done. lra.
  - destruct (Rlt_dec secs 0); [done | lra].
Qed.

Lemma run_time_sleep_overflow s secs :
  sleep_max < Rabs secs -> time_sleep secs s = (inl OverflowError, s).
Proof.
  unfold time_sleep. intros H.
  destruct (Rlt_dec sleep_max (Rabs secs)); [done | lra].
Qed.

Lemma run_time_sleep_refused s secs :
  0 <= secs <= sleep_max -> os_sleep_max s < secs ->
  time_sleep secs s = (inl OSError, s).
Proof.
  unfold time_sleep. intros [H0 H1] H2.
  destruct (Rlt_dec sleep_max (Rabs secs)) as [Hbig|_].
  { rewrite Rabs_pos_eq in Hbig by done. lra. }
  destruct (Rlt_dec secs 0); [lra|].
  destruct (Rlt_dec (os_sleep_max s) secs); [done | lra].
Qed.

(** How a delay fares with [time.sleep]: it returns, or raises one of its
    three exceptions, and then the delay is not one of [sleeps]. *)
Lemma sleep_cases s secs :
  time_sleep secs s = (inr tt, s) \/
  exists e, time_sleep secs s = (inl e, s) /\
            (e = ValueError \/ e = OverflowError \/ e = OSError) /\
            ~ sleeps s secs.
Proof.
  unfold time_sleep, sleeps, raise, ret.
  destruct (Rlt_dec sleep_max (Rabs secs)) as [Hbig|Hfit].
  { right. exists OverflowError. split; [done|]. split; [tauto|].
    intros [[H0 H1] _]. rewrite Rabs_pos_eq in Hbig by done. lra. }
  destruct (Rlt_dec secs 0) as [Hneg|Hpos].
  { right. exists ValueError. split; [done|]. split; [tauto|]. lra. }
  destruct (Rlt_dec (os_sleep_max s) secs) as [Hos|Hos].
  { right. exists OSError. split; [done|]. split; [tauto|]. lra. }
  by left.
Qed.

Lemma run_normal s mu scale :
  0 <= scale ->
  np_random_normal mu scale s = (inr (mu + scale * standard_normal s (draws s)), drew s).
Proof.
  unfold np_random_normal. intros H. destruct (Rlt_dec scale 0); [lra | done].
Qed.

Lemma run_normal_negative s mu scale :
  scale < 0 -> np_random_normal mu scale s = (inl ValueError, s).
Proof.
  unfold np_random_normal. intros H. destruct (Rlt_dec scale 0); [done | lra].
Qed.

Lemma run_truediv s x y : y <> 0 -> truediv x y s = (inr (x / y), s).
Proof. unfold truediv. intros H. by destruct (Req_dec_T y 0). Qed.

Lemma run_truediv_zero s x : truediv x 0 s = (inl ZeroDivisionError, s).
Proof. unfold truediv. by destruct (Req_dec_T 0 0). Qed.

(** Lookups in a heap written by [store], with the names compared. *)
Ltac heap_simpl :=
  repeat first
    [ rewrite attr_tick | rewrite attr_drew | rewrite class_at_tick
    | rewrite class_at_drew | rewrite class_at_store | rewrite attr_allocate
    | rewrite class_at_allocate;
      first [ rewrite decide_True by reflexivity
            | rewrite decide_False by lia ]
    | rewrite attr_store;
      first [ rewrite decide_True by (split; [reflexivity | reflexivity])
            | rewrite decide_False by (intros [? ?]; first [discriminate | congruence | lia]) ] ].

Lemma run_seq {A B : Type} (m : M A) (f : A -> M B) s a s1 r :
  m s = (inr a, s1) -> f a s1 = r -> bind m f s = r.
Proof. intros Hm <-. by apply run_bind. Qed.

Create HintDb methods discriminated.

#[global] Hint Unfold
  Device_refresh Fizzer_refresh Fizzmeter_refresh Carbonator_refresh call_refresh
  Device___init__ Fizzer___init__ Fizzer_add_carbonation Fizzer_get_carbonation
  Fizzer_get_fizziness Fizzmeter___init__ Fizzmeter_measure Fizzmeter_calibrate
  Carbonator___init__ Carbonator_get_uncertainty Carbonator_carbonate
  Buzzer___init__ Buzzer_get_buzziness BuzzMeter___init__
  construct returning_None returning_number method_of invoke : methods.

Ltac heap_done :=
  heap_simpl;
  first
    [ eassumption | reflexivity | apply attr_fresh | apply class_at_fresh
    | match goal with
      | H : class_at ?s ?l = Some _ |- context [class_at ?s ?l] =>
          rewrite H; reflexivity
      end ].

Ltac tapes_lra :=
  autorewrite with tapes; first [assumption | lra | unfold sleep_max; lra].

(** A run taken step by step, up to the value it returns or the exception it
    raises; the attributes are looked up in the heap the earlier steps wrote. *)
Ltac run :=
  cbn beta iota;
  lazymatch goal with
  | |- bind _ _ _ = _ =>
      first [ eapply run_seq; [run | run] | eapply run_bind_raise; run ]
  | |- getattr _ _ _ = _ =>
      first [ apply run_getattr; heap_done
            | eapply run_getattr_missing; heap_done
            | apply run_getattr_dangling; heap_done ]
  | |- setattr _ _ _ _ = _ => eapply run_setattr; heap_done
  | |- type_of _ _ = _ => eapply run_type_of; heap_done
  | |- time_sleep _ _ = _ =>
      first [ eassumption
            | apply run_time_sleep; tapes_lra
            | apply run_time_sleep_negative; tapes_lra
            | apply run_time_sleep_overflow; tapes_lra
            | apply run_time_sleep_refused; tapes_lra ]
  | |- np_random_normal _ _ _ = _ =>
      first [ apply run_normal; tapes_lra
            | apply run_normal_negative; tapes_lra ]
  | |- truediv _ _ _ = _ =>
      first [ apply run_truediv; tapes_lra | apply run_truediv_zero ]
  | |- time_time _ = _ => reflexivity
  | |- object_new _ _ = _ => reflexivity
  | |- ret _ _ = _ => reflexivity
  | |- raise _ _ = _ => reflexivity
  | |- (if decide (?x = ?x) then _ else _) _ = _ =>
      rewrite (decide_True (P := x = x)) by reflexivity; run
  | |- _ => progress autounfold with methods; run
  end.

(** ** Fizzer.get_carbonation *)

Lemma run_get_carbonation s self c0 T t0 c :
  class_at s self = Some c ->
  attr s self "carbonation" = Some c0 ->
  attr s self "time_constant_sec" = Some T ->
  attr s self "cal_time" = Some t0 ->
  T <> 0 ->
  Fizzer_get_carbonation self s =
  (inr (c0 * exp (- (clock s (ticks s) - t0) / T)),
   store self "cal_time" (clock s (ticks s))
     (store self "carbonation" (c0 * exp (- (clock s (ticks s) - t0) / T)) (tick s))).
Proof.
  intros Hc Hcarb HT Hcal HT0. unfold np_exp. run.
Qed.

(** C1.  A Fizzer that holds carbonation [c0], with a time constant [T > 0],
    read [dt >= 0] seconds after its calibration time: [get_carbonation]
    returns [c0 * exp (- dt / T)], stores that value in the [carbonation]
    attribute and sets [cal_time] to the time it read. *)
Theorem get_carbonation_decays s self c0 T t0 dt :
  attr s self "carbonation" = Some c0 ->
  attr s self "time_constant_sec" = Some T ->
  attr s self "cal_time" = Some t0 ->
  0 < T ->
  dt = clock s (ticks s) - t0 ->
  0 <= dt ->
  outcome (Fizzer_get_carbonation self) s = inr (c0 * exp (- dt / T)) /\
  attr (final (Fizzer_get_carbonation self) s) self "carbonation"
    = Some (c0 * exp (- dt / T)) /\
  attr (final (Fizzer_get_carbonation self) s) self "cal_time"
    = Some (clock s (ticks s)).
Proof.
  intros Hcarb HT Hcal Hpos -> _.
  destruct (attr_class_at _ _ _ _ Hcal) as [c Hc].
  unfold outcome, final.
  rewrite (run_get_carbonation s self c0 T t0 c) by (done || lra).
  cbn [fst snd]. split; [done|]. split; heap_done.
Qed.

(** ** The constructors *)

Lemma run_new_Fizzer s carbonation time_constant_days :
  invoke (new_Fizzer carbonation time_constant_days) s =
  (inr (VRef (length (heap s))),
   store (length (heap s)) "cal_time" (clock s (ticks s))
     (tick
        (store (length (heap s)) "cal_delay" 1
           (store (length (heap s)) "decal_rate" 0
              (store (length (heap s)) "time_constant_sec" (time_constant_days * day_sec)
                 (store (length (heap s)) "carbonation" carbonation
                    (allocate Fizzer s))))))).
Proof.
  run.
Qed.

Lemma run_new_Carbonator s response_delay uncertainty :
  invoke (new_Carbonator response_delay uncertainty) s =
  (inr (VRef (length (heap s))),
   store (length (heap s)) "uncertainty" uncertainty
     (store (length (heap s)) "response_delay" response_delay
        (store (length (heap s)) "cal_time" (clock s (ticks s))
           (tick
              (store (length (heap s)) "cal_delay" 1
                 (store (length (heap s)) "decal_rate" (1 / 1000)
                    (allocate Carbonator s))))))).
Proof. run. Qed.

Lemma run_new_Fizzmeter s response_delay uncertainty decal_rate_days :
  invoke (new_Fizzmeter response_delay uncertainty decal_rate_days) s =
  (inl AttributeError,
   tick
     (store (length (heap s)) "cal_delay" 1
        (store (length (heap s)) "decal_rate" (decal_rate_days * day_sec)
           (store (length (heap s)) "bias" 0
              (store (length (heap s)) "uncertainty" uncertainty
                 (store (length (heap s)) "response_delay" response_delay
                    (allocate Fizzmeter s))))))).
Proof. run. Qed.

Lemma run_new_Buzzer s :
  invoke new_Buzzer s = (inr (VRef (length (heap s))), allocate Buzzer s).
Proof. run. Qed.

(** C9.  Whatever the arguments, and whatever the heap and the clock,
    constructing a Fizzmeter raises [AttributeError]: [Device.__init__] calls
    the [refresh] of the Fizzmeter, which reads [cal_time] before anything has
    assigned it. *)
Theorem new_Fizzmeter_raises s response_delay uncertainty decal_rate_days :
  outcome (invoke (new_Fizzmeter response_delay uncertainty decal_rate_days)) s
  = inl AttributeError /\
  attr (final (invoke (new_Fizzmeter response_delay uncertainty decal_rate_days)) s)
       (length (heap s)) "cal_time" = None.
Proof.
  unfold outcome, final. rewrite run_new_Fizzmeter. cbn [fst snd].
  split; [done | heap_done].
Qed.

(** ** Reading twice at the same time *)

Lemma run_get_carbonation_zero s self c0 t0 :
  attr s self "carbonation" = Some c0 ->
  attr s self "time_constant_sec" = Some 0 ->
  attr s self "cal_time" = Some t0 ->
  Fizzer_get_carbonation self s = (inl ZeroDivisionError, tick s).
Proof. intros Hcarb HT Hcal. run. Qed.

Lemma decay_no_time v t T : v * exp (- (t - t) / T) = v.
Proof.
  replace (- (t - t) / T) with 0 by (unfold Rdiv; ring).
  rewrite exp_0. ring.
Qed.

(** C4.  Two [get_carbonation] calls in a row, the second reading the same
    time as the first: the second call ends as the first did (the same value
    returned; at a time constant of 0, the same [ZeroDivisionError]) and
    leaves the heap, and so the stored carbonation, as the first call left
    it.  With a time constant other than 0 the calls return a value. *)
Theorem get_carbonation_idempotent s self c0 T t0 :
  attr s self "carbonation" = Some c0 ->
  attr s self "time_constant_sec" = Some T ->
  attr s self "cal_time" = Some t0 ->
  clock s (S (ticks s)) = clock s (ticks s) ->
  outcome (Fizzer_get_carbonation self) (final (Fizzer_get_carbonation self) s)
    = outcome (Fizzer_get_carbonation self) s /\
  heap (final (Fizzer_get_carbonation self) (final (Fizzer_get_carbonation self) s))
    = heap (final (Fizzer_get_carbonation self) s) /\
  (T <> 0 ->
   outcome (Fizzer_get_carbonation self) s
     = inr (c0 * exp (- (clock s (ticks s) - t0) / T))).
Proof.
  intros Hcarb HT Hcal Hsame.
  destruct (attr_class_at _ _ _ _ Hcal) as [c Hc].
  unfold outcome, final.
  destruct (Req_dec_T T 0) as [->|HT0].
  - rewrite (run_get_carbonation_zero s self c0 t0) by done. cbn [fst snd].
    rewrite (run_get_carbonation_zero (tick s) self c0 t0) by done.
    cbn [fst snd]. by repeat split.
  - rewrite (run_get_carbonation s self c0 T t0 c) by done. cbn [fst snd].
    set (t := clock s (ticks s)) in *.
    set (v := c0 * exp (- (t - t0) / T)).
    set (s1 := store self "cal_time" t (store self "carbonation" v (tick s))).
    assert (Hv : attr s1 self "carbonation" = Some v) by (unfold s1; heap_done).
    assert (Ht : attr s1 self "cal_time" = Some t) by (unfold s1; heap_done).
    rewrite (run_get_carbonation s1 self v T t c);
      [ | first [eassumption | unfold s1; heap_done].. ].
    cbn [fst snd].
    replace (clock s1 (ticks s1)) with t by (symmetry; exact Hsame).
    rewrite decay_no_time. split; [done|]. split; [|done].
    rewrite attr_stored; [rewrite attr_stored; [done|] | ]; by heap_simpl.
Qed.

(** ** The fizziness curve *)

Lemma np_exp_nonneg x : 0 <= np_exp x.
Proof. left. apply exp_pos. Qed.

Lemma np_exp_le x y : x <= y -> np_exp x <= np_exp y.
Proof.
  unfold np_exp. intros [Hlt| ->]; [left; by apply exp_increasing | lra].
Qed.

Lemma shifted_logistic_0 : shifted_logistic 0 = 0.
Proof. unfold shifted_logistic, np_exp. rewrite Ropp_0, exp_0. lra. Qed.

Lemma shifted_logistic_bounds x : -1 <= shifted_logistic x <= 1.
Proof.
  unfold shifted_logistic.
  pose proof (np_exp_nonneg (- x)) as He.
  assert (H0 : 0 < / (1 + np_exp (- x))).
  { apply Rinv_0_lt_compat. lra. }
  assert (H1 : / (1 + np_exp (- x)) <= / 1).
  { apply Rinv_le_contravar; lra. }
  rewrite Rinv_1 in H1. unfold Rdiv. lra.
Qed.

Lemma shifted_logistic_le x y : x <= y -> shifted_logistic x <= shifted_logistic y.
Proof.
  intros Hxy. unfold shifted_logistic.
  pose proof (np_exp_nonneg (- y)) as Hy.
  assert (He : np_exp (- y) <= np_exp (- x)).
  { apply np_exp_le. lra. }
  assert (Hi : / (1 + np_exp (- x)) <= / (1 + np_exp (- y))).
  { apply Rinv_le_contravar; lra. }
  unfold Rdiv. lra.
Qed.

Lemma run_get_fizziness s self r s' :
  Fizzer_get_carbonation self s = (r, s') ->
  Fizzer_get_fizziness self s =
  (match r with inr c => inr (shifted_logistic c) | inl e => inl e end, s').
Proof.
  intros H. unfold Fizzer_get_fizziness, bind. rewrite H. by destruct r.
Qed.

(** C3, amended.  [shifted_logistic], the curve [2/(1+e^(-x)) - 1] that
    [get_fizziness] applies to the carbonation [get_carbonation] returns,
    never decreases, takes its values in the closed interval from -1 to 1,
    and is 0 at 0, also in binary64, where [np.exp(-0.0)] is 1.0. *)
Theorem shifted_logistic_curve :
  (forall x y, x <= y -> shifted_logistic x <= shifted_logistic y) /\
  (forall x, -1 <= shifted_logistic x <= 1) /\
  shifted_logistic 0 = 0 /\
  shifted_logistic_binary64 1 = 0%float /\
  (forall x, shifted_logistic x = 2 / (1 + exp (- x)) - 1) /\
  (forall s self c s',
     Fizzer_get_carbonation self s = (inr c, s') ->
     Fizzer_get_fizziness self s = (inr (shifted_logistic c), s')).
Proof.
  split; [exact shifted_logistic_le|].
  split; [exact shifted_logistic_bounds|].
  split; [exact shifted_logistic_0|].
  split; [reflexivity|].
  split; [reflexivity|].
  intros s self c s' H. by rewrite (run_get_fizziness _ _ _ _ H).
Qed.

(** ** Constructors do not check their arguments *)

(** C5, amended.  No constructor checks the sign of its arguments: a
    Carbonator and a Fizzer are constructed for every choice of arguments,
    negative ones included, and hold the arguments as they were given. *)
Theorem constructors_store_any_arguments s :
  (forall response_delay uncertainty,
     outcome (invoke (new_Carbonator response_delay uncertainty)) s
       = inr (VRef (length (heap s))) /\
     attr (final (invoke (new_Carbonator response_delay uncertainty)) s)
          (length (heap s)) "response_delay" = Some response_delay /\
     attr (final (invoke (new_Carbonator response_delay uncertainty)) s)
          (length (heap s)) "uncertainty" = Some uncertainty) /\
  (forall carbonation time_constant_days,
     outcome (invoke (new_Fizzer carbonation time_constant_days)) s
       = inr (VRef (length (heap s))) /\
     attr (final (invoke (new_Fizzer carbonation time_constant_days)) s)
          (length (heap s)) "carbonation" = Some carbonation /\
     attr (final (invoke (new_Fizzer carbonation time_constant_days)) s)
          (length (heap s)) "time_constant_sec" = Some (time_constant_days * day_sec)).
Proof.
  unfold outcome, final. split; intros.
  - rewrite run_new_Carbonator. cbn [fst snd]. repeat split; heap_done.
  - rewrite run_new_Fizzer. cbn [fst snd]. repeat split; heap_done.
Qed.

(** C6, amended.  A Fizzer with a time constant of 0 is constructed like any
    other.  The division by zero is met in [get_carbonation], which raises
    [ZeroDivisionError] before it assigns anything: the heap, and the stored
    carbonation with it, stays as it was. *)
Theorem zero_time_constant_fails_on_read s carbonation :
  outcome (invoke (new_Fizzer carbonation 0)) s = inr (VRef (length (heap s))) /\
  outcome (Fizzer_get_carbonation (length (heap s)))
          (final (invoke (new_Fizzer carbonation 0)) s)
    = inl ZeroDivisionError /\
  heap (final (Fizzer_get_carbonation (length (heap s)))
              (final (invoke (new_Fizzer carbonation 0)) s))
    = heap (final (invoke (new_Fizzer carbonation 0)) s).
Proof.
  unfold outcome, final. rewrite run_new_Fizzer. cbn [fst snd].
  replace (0 * day_sec) with 0 by ring.
  erewrite run_get_carbonation_zero; [done | heap_done..].
Qed.

(** ** Carbonator.carbonate *)

(** All [carbonate] does to the heap is the [refresh] of the Carbonator. *)
Lemma run_carbonate s self fizzer carbonation :
  class_at s self = Some Carbonator ->
  heap (final (Carbonator_carbonate self fizzer carbonation) s)
    = heap (store self "cal_time" (clock s (ticks s)) (tick s)) /\
  (forall u, attr s self "uncertainty" = Some u -> 0 <= u ->
     Carbonator_carbonate self fizzer carbonation s
       = (inr tt, drew (store self "cal_time" (clock s (ticks s)) (tick s)))).
Proof.
  intros Hc. unfold final.
  destruct (attr s self "uncertainty") as [u|] eqn:Hu.
  - destruct (Rlt_dec u 0) as [Hneg|Hpos].
    + assert (Hrun : Carbonator_carbonate self fizzer carbonation s
                     = (inl ValueError, store self "cal_time" (clock s (ticks s)) (tick s)))
        by run.
      rewrite Hrun. split; [done|]. intros ? [= <-] ?. lra.
    + assert (Hrun : Carbonator_carbonate self fizzer carbonation s
                     = (inr tt, drew (store self "cal_time" (clock s (ticks s)) (tick s))))
        by run.
      rewrite Hrun. split; [done|]. by intros.
  - assert (Hrun : Carbonator_carbonate self fizzer carbonation s
                   = (inl AttributeError, store self "cal_time" (clock s (ticks s)) (tick s)))
      by run.
    rewrite Hrun. split; [done|]. intros ? [=].
Qed.

(** C7.  [carbonate], called on a Carbonator with a Fizzer as its target,
    leaves the Fizzer as it was: the object at the target's location, with
    all its attributes, is the same after the call, whether the call returns
    or raises.  When the uncertainty is set and not negative the call
    returns [None], having drawn one sample that it uses for nothing. *)
Theorem carbonate_leaves_fizzer s self fizzer carbonation :
  class_at s self = Some Carbonator ->
  class_at s fizzer = Some Fizzer ->
  heap (final (Carbonator_carbonate self fizzer carbonation) s) !! fizzer
    = heap s !! fizzer /\
  (forall name,
     attr (final (Carbonator_carbonate self fizzer carbonation) s) fizzer name
       = attr s fizzer name) /\
  (forall u, attr s self "uncertainty" = Some u -> 0 <= u ->
     outcome (Carbonator_carbonate self fizzer carbonation) s = inr tt /\
     draws (final (Carbonator_carbonate self fizzer carbonation) s) = S (draws s)).
Proof.
  intros Hself Hfizzer.
  assert (Hne : self <> fizzer) by (intros ->; congruence).
  destruct (run_carbonate s self fizzer carbonation Hself) as [Hheap Hrun].
  assert (Hobj : heap (final (Carbonator_carbonate self fizzer carbonation) s) !! fizzer
                 = heap s !! fizzer).
  { rewrite Hheap. unfold store, with_heap, tick; cbn [heap].
    by rewrite list_lookup_alter_ne. }
  split; [exact Hobj|]. split.
  - intros name. unfold attr. by rewrite Hobj.
  - intros u Hu Hpos. unfold outcome, final. by rewrite (Hrun u Hu Hpos).
Qed.

(** ** Fizzmeter.calibrate *)

Lemma run_calibrate s self d b t0 r :
  class_at s self = Some Fizzmeter ->
  attr s self "cal_delay" = Some d ->
  attr s self "bias" = Some b ->
  attr s self "cal_time" = Some t0 ->
  attr s self "decal_rate" = Some r ->
  sleeps s d ->
  0 <= (clock s (ticks s) - t0) * r ->
  Fizzmeter_calibrate self s =
  (inr tt,
   store self "cal_time" (clock s (ticks s))
     (store self "bias"
        (0 + (0 + (clock s (ticks s) - t0) * r * standard_normal s (draws s)))
        (drew (tick (store self "bias" 0 s))))).
Proof. intros Hc Hd Hb Ht Hr Hd0 Hscale. run. Qed.

(** C2, as the code has it.  [calibrate] assigns 0 to the bias and then
    calls the [refresh] of the Fizzmeter, which adds to the bias the drift
    of the time since the last calibration: when [calibrate] returns, the
    bias is that drift sample, of deviation [(now - cal_time) * decal_rate],
    and not 0. *)
Theorem calibrate_leaves_drift s self d b t0 r :
  class_at s self = Some Fizzmeter ->
  attr s self "cal_delay" = Some d ->
  attr s self "bias" = Some b ->
  attr s self "cal_time" = Some t0 ->
  attr s self "decal_rate" = Some r ->
  sleeps s d ->
  0 <= (clock s (ticks s) - t0) * r ->
  outcome (Fizzmeter_calibrate self) s = inr tt /\
  attr (final (Fizzmeter_calibrate self) s) self "bias"
    = Some ((clock s (ticks s) - t0) * r * standard_normal s (draws s)).
Proof.
  intros Hc Hd Hb Ht Hr Hd0 Hscale. unfold outcome, final.
  rewrite (run_calibrate s self d b t0 r) by done. cbn [fst snd].
  split; [done|]. heap_simpl. rewrite Hc. cbn. f_equal. ring.
Qed.

(** ** Computations keep invariants *)

Section Preserves.

Context (I : State -> Prop).

Lemma final_bind {A B : Type} (m : M A) (f : A -> M B) s :
  final (bind m f) s =
  match outcome m s with
  | inr a => final (f a) (final m s)
  | inl _ => final m s
  end.
Proof. unfold final, outcome, bind. by destruct (m s) as [[e|a] s1]. Qed.

Lemma preserves_bind {A B : Type} (m : M A) (f : A -> M B) :
  preserves I m -> (forall a, preserves I (f a)) -> preserves I (bind m f).
Proof.
  intros Hm Hf s Hs. rewrite final_bind.
  destruct (outcome m s); [by apply Hm | by apply Hf, Hm].
Qed.

Lemma preserves_ret {A : Type} (a : A) : preserves I (ret a).
Proof. by intros s Hs. Qed.

Lemma preserves_raise {A : Type} e : preserves I (raise (A := A) e).
Proof. by intros s Hs. Qed.

Lemma preserves_getattr self n : preserves I (getattr self n).
Proof.
  intros s Hs. unfold final, getattr.
  destruct (heap s !! self) as [o|]; [|done]. by destruct (ob_dict o !! n).
Qed.

Lemma preserves_type_of self : preserves I (type_of self).
Proof.
  intros s Hs. unfold final, type_of. by destruct (heap s !! self).
Qed.

Lemma preserves_truediv x y : preserves I (truediv x y).
Proof. intros s Hs. unfold final, truediv. by destruct (Req_dec_T y 0). Qed.

Lemma preserves_time_sleep secs : preserves I (time_sleep secs).
Proof.
  intros s Hs. unfold final.
  by destruct (sleep_cases s secs) as [->|(e & -> & _)].
Qed.

Context (writable : string -> Prop) `{!Stable I writable}.

Lemma preserves_setattr self n v : writable n -> preserves I (setattr self n v).
Proof.
  intros Hn s Hs. unfold final, setattr.
  destruct (heap s !! self); [|done]. by apply stable_store.
Qed.

Lemma preserves_object_new c : preserves I (object_new c).
Proof. intros s Hs. by apply stable_allocate. Qed.

Lemma preserves_time_time : preserves I time_time.
Proof. intros s Hs. by apply stable_tick. Qed.

Lemma preserves_normal mu scale : preserves I (np_random_normal mu scale).
Proof.
  intros s Hs. unfold final, np_random_normal.
  destruct (Rlt_dec scale 0); [done|]. by apply stable_drew.
Qed.

End Preserves.

#[global] Instance no_fizziness_stable :
  Stable no_fizziness (fun n => n <> "fizziness").
Proof.
  split; unfold no_fizziness.
  - intros s H l. by rewrite attr_tick.
  - intros s H l. by rewrite attr_drew.
  - intros c s H l. by rewrite attr_allocate.
  - intros self n v s Hn H l. rewrite attr_store.
    rewrite decide_False by (intros [_ ?]; congruence). done.
Qed.

Lemma since_refl s0 : since s0 0 s0.
Proof. unfold since. repeat split; [lia.. | by left]. Qed.

Lemma since_weaken s0 b b' s : (b <= b')%nat -> since s0 b' s -> since s0 b s.
Proof. unfold since. intros Hb (Hc & Ht & Hb' & Hl). repeat split; [done | lia.. | done]. Qed.

#[global] Instance since_stable s0 b :
  Stable (since s0 b) (fun n => n <> "cal_time").
Proof.
  split; unfold since.
  - intros s (Hc & Ht & Hb & Hl). autorewrite with tapes.
    repeat split; [done | lia.. |]. intros l. rewrite attr_tick.
    destruct (Hl l) as [?|(j & ? & ?)]; [by left | right; exists j; split; [lia | done]].
  - intros s (Hc & Ht & Hb & Hl). autorewrite with tapes.
    repeat split; [done..|]. intros l. by rewrite attr_drew.
  - intros c s (Hc & Ht & Hb & Hl). autorewrite with tapes.
    repeat split; [done..|]. intros l. by rewrite attr_allocate.
  - intros self n v s Hn (Hc & Ht & Hb & Hl). autorewrite with tapes.
    repeat split; [done..|]. intros l. rewrite attr_store.
    rewrite decide_False by (intros [_ ?]; congruence). done.
Qed.

(** [Device.refresh] with a reading made since [s0]. *)
Lemma since_refresh s0 j self :
  (ticks s0 <= j)%nat ->
  preserves (since s0 (S j)) (setattr self "cal_time" (clock s0 j)).
Proof.
  intros Hj s (Hc & Ht & Hb & Hl). unfold final, setattr.
  destruct (heap s !! self) as [o|] eqn:Ho; cbn [snd]; [|done].
  unfold since. autorewrite with tapes. repeat split; [done..|].
  intros l. rewrite attr_store. case_decide as Hd; [|done].
  right. exists j. split; [lia|]. unfold class_at. by rewrite Ho.
Qed.

(** A reading of the clock, then steps that may store it. *)
Lemma preserves_timed {A : Type} s0 b (k : R -> M A) :
  (forall j, (ticks s0 <= j)%nat -> (b <= j)%nat ->
             preserves (since s0 (S j)) (k (clock s0 j))) ->
  preserves (since s0 b) (bind time_time k).
Proof.
  intros Hk s Hs. rewrite final_bind. unfold outcome, final, time_time; cbn [fst snd].
  destruct Hs as (Hc & Ht & Hb & Hl).
  apply (since_weaken s0 b (S (ticks s))); [lia|].
  rewrite Hc. apply Hk; [done..|].
  unfold since. autorewrite with tapes. repeat split; [done | lia.. |].
  intros l. rewrite attr_tick.
  destruct (Hl l) as [?|(j & ? & ?)]; [by left | right; exists j; split; [lia | done]].
Qed.

(** A computation keeps an invariant when its steps do. *)
Ltac preserve :=
  repeat first
    [ apply preserves_timed; intros; cbn beta
    | apply preserves_bind; [|intros]
    | apply preserves_ret
    | apply preserves_raise
    | apply preserves_getattr
    | apply preserves_type_of
    | apply preserves_truediv
    | apply preserves_time_sleep
    | apply since_refresh; lia
    | eapply preserves_setattr; [tc_solve | cbv beta; discriminate]
    | eapply preserves_object_new; tc_solve
    | eapply preserves_time_time; tc_solve
    | eapply preserves_normal; tc_solve
    | match goal with
      | |- preserves _ (match ?c with _ => _ end) => destruct c
      | |- preserves _ (if decide _ then _ else _) => case_decide
      end
    | progress autounfold with methods ].

Lemma no_fizziness_invoke call : preserves no_fizziness (invoke call).
Proof. destruct call; preserve. Qed.

Lemma since_invoke s0 b call :
  from_time_source call -> preserves (since s0 b) (invoke call).
Proof. destruct call; intros Hsrc; try done; preserve. Qed.

(** ** Client programs *)

Lemma run_snoc prog call s : run (prog ++ [call]) s = final (invoke call) (run prog s).
Proof. unfold run. by rewrite fold_left_app. Qed.

Lemma run_cons call prog s : run (call :: prog) s = run prog (final (invoke call) s).
Proof. reflexivity. Qed.

Lemma run_no_fizziness prog s : no_fizziness s -> no_fizziness (run prog s).
Proof.
  revert s. induction prog as [|call prog IH]; intros s Hs; [done|].
  rewrite run_cons. by apply IH, no_fizziness_invoke.
Qed.

Lemma no_fizziness_init clock0 samples limit : no_fizziness (init clock0 samples limit).
Proof. by intros l. Qed.

(** A Fizzer made through the public interface has no [fizziness]. *)
Lemma public_Fizzer_no_fizziness o :
  public_Fizzer o -> ob_dict o !! "fizziness" = None.
Proof.
  intros (_ & clock0 & samples & limit & prog & l & Hl).
  pose proof (run_no_fizziness prog _ (no_fizziness_init clock0 samples limit) l) as H.
  unfold attr in H. by rewrite Hl in H.
Qed.

Lemma monotone_le clock0 i j :
  monotone clock0 -> (i <= j)%nat -> clock0 i <= clock0 j.
Proof.
  intros Hm Hij. induction Hij as [|j Hij IH]; [lra|].
  pose proof (Hm j). lra.
Qed.

Lemma since_bounded s0 b s :
  monotone (clock s0) -> bounded s0 -> since s0 b s ->
  bounded s /\
  forall l, cal_time_le (attr s0 l "cal_time") (attr s l "cal_time").
Proof.
  intros Hm Hb (Hc & Ht & _ & Hl). split.
  - intros l v Hv. rewrite Hc.
    destruct (Hl l) as [Heq|(j & Hj & Heq)]; rewrite Heq in Hv.
    + pose proof (Hb l v Hv). pose proof (monotone_le _ _ _ Hm Ht). lra.
    + injection Hv as <-. apply monotone_le; [done | lia].
  - intros l. unfold cal_time_le.
    destruct (attr s0 l "cal_time") as [x|] eqn:Hx; [|done].
    destruct (Hl l) as [Heq|(j & Hj & Heq)]; rewrite Heq, ?Hx; cbn.
    + lra.
    + pose proof (Hb l x Hx). pose proof (monotone_le _ (ticks s0) j Hm ltac:(lia)). lra.
Qed.

Lemma run_bounded prog s :
  monotone (clock s) -> bounded s -> Forall from_time_source prog ->
  bounded (run prog s) /\ clock (run prog s) = clock s.
Proof.
  revert s. induction prog as [|call prog IH]; intros s Hm Hb Hsrc; [done|].
  apply Forall_cons in Hsrc as [Hcall Hsrc]. rewrite run_cons.
  pose proof (since_invoke s 0%nat call Hcall s (since_refl s)) as Hsince.
  destruct (since_bounded _ _ _ Hm Hb Hsince) as [Hb' _].
  assert (Hc : clock (final (invoke call) s) = clock s) by apply Hsince.
  destruct (IH (final (invoke call) s)) as [? Hc']; [by rewrite Hc | done..|].
  split; [done | by rewrite Hc'].
Qed.

Lemma bounded_init clock0 samples limit : bounded (init clock0 samples limit).
Proof. by intros l v. Qed.

(** ** What a returning drift operation has done *)

(** The computation raises at [s], against the hypothesis that it returns. *)
Ltac raises Hret :=
  exfalso; unfold outcome in Hret;
  match type of Hret with
  | fst (?m ?s) = _ =>
      let H := fresh in
      assert (H : exists e s', m s = (inl e, s')) by (do 2 eexists; run);
      destruct H as (? & ? & H); rewrite H in Hret; discriminate Hret
  end.

Lemma get_carbonation_refreshes s self v :
  outcome (Fizzer_get_carbonation self) s = inr v ->
  attr (final (Fizzer_get_carbonation self) s) self "cal_time"
    = Some (clock s (ticks s)).
Proof.
  intros Hret.
  destruct (class_at s self) as [c|] eqn:Hc; [|raises Hret].
  destruct (attr s self "cal_time") as [t0|] eqn:Ht; [|raises Hret].
  destruct (attr s self "carbonation") as [c0|] eqn:Hcarb; [|raises Hret].
  destruct (attr s self "time_constant_sec") as [T|] eqn:HT; [|raises Hret].
  destruct (Req_dec_T T 0) as [->|HT0]; [raises Hret|].
  unfold final. rewrite (run_get_carbonation s self c0 T t0 c) by done.
  cbn [snd]. heap_done.
Qed.

Lemma run_Fizzmeter_refresh s self c t0 b r :
  class_at s self = Some c ->
  attr s self "cal_time" = Some t0 ->
  attr s self "bias" = Some b ->
  attr s self "decal_rate" = Some r ->
  0 <= (clock s (ticks s) - t0) * r ->
  Fizzmeter_refresh self s =
  (inr tt,
   store self "cal_time" (clock s (ticks s))
     (store self "bias"
        (b + (0 + (clock s (ticks s) - t0) * r * standard_normal s (draws s)))
        (drew (tick s)))).
Proof. intros Hc Ht Hb Hr Hscale. run. Qed.

Lemma Fizzmeter_refresh_refreshes s self :
  outcome (Fizzmeter_refresh self) s = inr tt ->
  attr (final (Fizzmeter_refresh self) s) self "cal_time"
    = Some (clock s (ticks s)).
Proof.
  intros Hret.
  destruct (class_at s self) as [c|] eqn:Hc; [|raises Hret].
  destruct (attr s self "cal_time") as [t0|] eqn:Ht; [|raises Hret].
  destruct (attr s self "bias") as [b|] eqn:Hb; [|raises Hret].
  destruct (attr s self "decal_rate") as [r|] eqn:Hr; [|raises Hret].
  destruct (Rlt_le_dec ((clock s (ticks s) - t0) * r) 0) as [Hneg|Hpos];
    [raises Hret|].
  unfold final. rewrite (run_Fizzmeter_refresh s self c t0 b r) by done.
  cbn [snd]. heap_done.
Qed.

(** C8, amended.  The clock never going back, and every call of the client
    program taking its time from the clock (so not [refresh_at], the
    [Device.refresh(t_new)] that [Buzzer] and [BuzzMeter] inherit), a
    [cal_time] that is set stays set and does not decrease over the next
    call, whichever instance it belongs to and however the call ends.
    [get_carbonation] and the [refresh] of a Fizzmeter, when they return,
    have set [cal_time] to the time they read. *)
Theorem cal_time_never_goes_back clock0 samples limit prog call l :
  monotone clock0 ->
  Forall from_time_source prog ->
  from_time_source call ->
  cal_time_le
    (attr (run prog (init clock0 samples limit)) l "cal_time")
    (attr (final (invoke call) (run prog (init clock0 samples limit))) l "cal_time") /\
  (forall s v,
     outcome (Fizzer_get_carbonation l) s = inr v ->
     attr (final (Fizzer_get_carbonation l) s) l "cal_time"
       = Some (clock s (ticks s))) /\
  (forall s,
     outcome (Fizzmeter_refresh l) s = inr tt ->
     attr (final (Fizzmeter_refresh l) s) l "cal_time"
       = Some (clock s (ticks s))).
Proof.
  intros Hm Hprog Hcall.
  split; [|split; [intros s v H; exact (get_carbonation_refreshes s l v H)
                  |intros s H; exact (Fizzmeter_refresh_refreshes s l H)]].
  set (s := run prog (init clock0 samples limit)).
  destruct (run_bounded prog (init clock0 samples limit) Hm
              (bounded_init clock0 samples limit) Hprog) as [Hb Hc].
  fold s in Hb, Hc.
  pose proof (since_invoke s 0%nat call Hcall s (since_refl s)) as Hsince.
  apply (since_bounded s 0%nat); [by rewrite Hc | done..].
Qed.

(** ** Fizzmeter.measure *)

(** How [measure] ends when its target has no [fizziness]. *)
Lemma measure_raises s meter fizzer c :
  class_at s meter = Some Fizzmeter ->
  class_at s fizzer = Some c ->
  attr s fizzer "fizziness" = None ->
  (exists s', Fizzmeter_measure meter fizzer s = (inl AttributeError, s')) \/
  (~ meter_valid s meter /\
   exists e s', (e = ValueError \/ e = OverflowError \/ e = OSError) /\
                Fizzmeter_measure meter fizzer s = (inl e, s')).
Proof.
  intros Hm Hf Hfizz.
  destruct (attr s meter "response_delay") as [rd|] eqn:Hrd;
    [|left; eexists; run].
  destruct (sleep_cases s rd) as [Hsleep|(e & Hsleep & He & Hno)]; cycle 1.
  { right. split; [|exists e; eexists; split; [exact He|run]].
    intros (H & _ & _). exact (Hno (H rd Hrd)). }
  destruct (attr s meter "cal_time") as [t0|] eqn:Ht; [|left; eexists; run].
  destruct (attr s meter "bias") as [b|] eqn:Hb; [|left; eexists; run].
  destruct (attr s meter "decal_rate") as [r|] eqn:Hr; [|left; eexists; run].
  destruct (Rlt_le_dec ((clock s (ticks s) - t0) * r) 0) as [Hsc|Hsc].
  { right. split; [|exists ValueError; eexists; split; [by left|run]].
    intros (_ & _ & H). specialize (H t0 r Ht Hr). lra. }
  destruct (attr s meter "uncertainty") as [u|] eqn:Hu; [|left; eexists; run].
  destruct (Rlt_le_dec u 0) as [Hu0|Hu0].
  { right. split; [|exists ValueError; eexists; split; [by left|run]].
    intros (_ & H & _). specialize (H u Hu). lra. }
  left. eexists. run.
Qed.

(** With every attribute of the meter set and the arguments of its sleep
    and draws not negative, [measure] gets as far as the read of
    [fizzer.fizziness]. *)
Lemma run_measure s meter fizzer c rd t0 b r u :
  class_at s meter = Some Fizzmeter ->
  class_at s fizzer = Some c ->
  attr s fizzer "fizziness" = None ->
  attr s meter "response_delay" = Some rd ->
  attr s meter "cal_time" = Some t0 ->
  attr s meter "bias" = Some b ->
  attr s meter "decal_rate" = Some r ->
  attr s meter "uncertainty" = Some u ->
  sleeps s rd -> 0 <= (clock s (ticks s) - t0) * r -> 0 <= u ->
  Fizzmeter_measure meter fizzer s =
  (inl AttributeError,
   drew
     (store meter "cal_time" (clock s (ticks s))
        (store meter "bias"
           (b + (0 + (clock s (ticks s) - t0) * r * standard_normal s (draws s)))
           (drew (tick s))))).
Proof. intros Hm Hf Hfizz Hrd Ht Hb Hr Hu Hrd0 Hsc Hu0. run. Qed.

(** C10, amended.  For a Fizzer made and changed through the public
    interface only, and any Fizzmeter, [measure] never returns a value.  It
    raises [AttributeError] (at the latest when it reads the [fizziness] of
    the Fizzer, an attribute that no code assigns), unless the meter raises
    first: [ValueError] when its [time.sleep] or one of its two noise draws
    is given a negative argument, [OverflowError] when its response delay
    is longer than [time.sleep] can convert, [OSError] when the operating
    system refuses the delay.  A meter with all its attributes set, a delay
    for which [time.sleep] returns and no negative deviation has drawn both
    its samples when the read raises. *)
Theorem measure_never_returns s meter fizzer o :
  heap s !! fizzer = Some o ->
  public_Fizzer o ->
  class_at s meter = Some Fizzmeter ->
  (outcome (Fizzmeter_measure meter fizzer) s = inl AttributeError \/
   outcome (Fizzmeter_measure meter fizzer) s = inl ValueError \/
   outcome (Fizzmeter_measure meter fizzer) s = inl OverflowError \/
   outcome (Fizzmeter_measure meter fizzer) s = inl OSError) /\
  (meter_valid s meter ->
   outcome (Fizzmeter_measure meter fizzer) s = inl AttributeError) /\
  (meter_valid s meter ->
   is_Some (attr s meter "response_delay") -> is_Some (attr s meter "cal_time") ->
   is_Some (attr s meter "bias") -> is_Some (attr s meter "decal_rate") ->
   is_Some (attr s meter "uncertainty") ->
   draws (final (Fizzmeter_measure meter fizzer) s) = S (S (draws s))).
Proof.
  intros Ho Hpub Hm.
  assert (Hf : class_at s fizzer = Some (ob_class o)).
  { unfold class_at. by rewrite Ho. }
  assert (Hfizz : attr s fizzer "fizziness" = None).
  { unfold attr. rewrite Ho. by apply public_Fizzer_no_fizziness. }
  split; [|split].
  - unfold outcome.
    destruct (measure_raises s meter fizzer _ Hm Hf Hfizz)
      as [[s' ->]|[Hinv (e & s' & [-> | [-> | ->]] & ->)]]; cbn [fst]; auto.
  - intros Hvalid. unfold outcome.
    destruct (measure_raises s meter fizzer _ Hm Hf Hfizz)
      as [[s' ->]|[Hinv (e & s' & _ & ->)]]; cbn [fst]; done.
  - intros (Hrd0 & Hu0 & Hsc) [rd Hrd] [t0 Ht] [b Hb] [r Hr] [u Hu].
    unfold final.
    rewrite (run_measure s meter fizzer _ rd t0 b r u) by eauto.
    reflexivity.
Qed.

(** ** The theorems at sample states *)

Lemma run_refresh_at s self t_new :
  class_at s self = Some Buzzer ->
  invoke (refresh_at self t_new) s = (inr VNone, store self "cal_time" t_new s).
Proof. intros Hc. run. Qed.

(** Runs a sample state down to the writes that made it. *)
Ltac sample :=
  unfold drifted_meter;
  rewrite ?run_cons; unfold run, final; cbn [fold_left];
  rewrite ?run_new_Fizzer, ?run_new_Carbonator, ?run_new_Fizzmeter, ?run_new_Buzzer;
  cbn [snd fst].

Lemma get_carbonation_decays_witness :
  outcome (Fizzer_get_carbonation 0) day_old_fizzer = inr (1 * exp (- 1)).
Proof.
  destruct (get_carbonation_decays day_old_fizzer 0 1 (1 * day_sec)
              (days_clock 0) (days_clock 1 - days_clock 0)) as (H & _ & _).
  - sample. heap_done.
  - sample. heap_done.
  - sample. heap_done.
  - unfold day_sec. lra.
  - reflexivity.
  - unfold days_clock, day_sec. cbn [INR]. lra.
  - rewrite H. do 3 f_equal. unfold days_clock, day_sec. cbn [INR]. field.
Defined.

Lemma get_carbonation_idempotent_witness :
  outcome (Fizzer_get_carbonation 0)
          (final (Fizzer_get_carbonation 0) still_fizzer)
    = outcome (Fizzer_get_carbonation 0) still_fizzer /\
  heap (final (Fizzer_get_carbonation 0)
              (final (Fizzer_get_carbonation 0) still_fizzer))
    = heap (final (Fizzer_get_carbonation 0) still_fizzer).
Proof.
  destruct (get_carbonation_idempotent still_fizzer 0 1 (1 * day_sec) 1)
    as (H1 & H2 & _).
  - sample. heap_done.
  - sample. heap_done.
  - sample. heap_done.
  - reflexivity.
  - split; [exact H1 | exact H2].
Defined.

Lemma shifted_logistic_curve_witness :
  shifted_logistic 0 <= shifted_logistic 1 <= 1.
Proof.
  destruct shifted_logistic_curve as (Hinc & Hb & _).
  split; [apply Hinc; lra | apply Hb].
Defined.

(** C3, as stated, fails in the doubles of the program.  At 37.0 and at
    40.0 the curve is 1.0 both times: [np.exp(-x)] is below [2^-53], the
    sum [1 + np.exp(-x)] rounds to 1.0, and [2 / 1.0 - 1] is 1.0.  At
    -40.0 it is -1.0.  So the curve is not strictly increasing, and its
    values are not strictly between -1 and 1. *)
Lemma shifted_logistic_saturates :
  shifted_logistic_binary64 exp_minus_37 = 1%float /\
  shifted_logistic_binary64 exp_minus_40 = 1%float /\
  shifted_logistic_binary64 exp_40 = (-1)%float.
Proof. repeat split; reflexivity. Qed.

Lemma drifted_meter_sleeps : sleeps drifted_meter 1.
Proof.
  unfold sleeps, drifted_meter. autorewrite with tapes. cbn [os_sleep_max init].
  unfold sleep_max, day_up. lra.
Qed.

Lemma calibrate_leaves_drift_witness :
  outcome (Fizzmeter_calibrate 0) drifted_meter = inr tt /\
  attr (final (Fizzmeter_calibrate 0) drifted_meter) 0 "bias" = Some 86400.
Proof.
  destruct (calibrate_leaves_drift drifted_meter 0 1 3 0 (1 * day_sec))
    as (H1 & H2).
  - sample. heap_done.
  - sample. heap_done.
  - sample. heap_done.
  - sample. heap_done.
  - sample. heap_done.
  - exact drifted_meter_sleeps.
  - unfold drifted_meter. autorewrite with tapes. cbn [clock init].
    unfold day_sec. lra.
  - split; [exact H1|]. rewrite H2. f_equal.
    unfold drifted_meter. autorewrite with tapes.
    cbn [clock standard_normal init]. unfold unit_samples, day_sec. lra.
Defined.

Lemma carbonate_leaves_fizzer_witness :
  heap (final (Carbonator_carbonate 0 1 5) carbonator_and_fizzer) !! 1%nat
    = heap carbonator_and_fizzer !! 1%nat /\
  outcome (Carbonator_carbonate 0 1 5) carbonator_and_fizzer = inr tt.
Proof.
  destruct (carbonate_leaves_fizzer carbonator_and_fizzer 0 1 5)
    as (H1 & _ & H3).
  - sample. heap_done.
  - sample. heap_done.
  - split; [exact H1|]. apply (H3 (1 / 100)); [|lra]. sample. heap_done.
Defined.

Lemma seconds_clock_monotone : monotone seconds_clock.
Proof. intros n. unfold seconds_clock. rewrite S_INR. lra. Qed.

Lemma cal_time_never_goes_back_witness :
  cal_time_le
    (attr (run [new_Fizzer 1 1] (init seconds_clock unit_samples day_up)) 0 "cal_time")
    (attr (final (invoke (get_carbonation 0))
                 (run [new_Fizzer 1 1] (init seconds_clock unit_samples day_up)))
          0 "cal_time").
Proof.
  apply (cal_time_never_goes_back seconds_clock unit_samples day_up
           [new_Fizzer 1 1] (get_carbonation 0) 0).
  - exact seconds_clock_monotone.
  - apply Forall_cons. split; [exact I | apply Forall_nil_2].
  - exact I.
Defined.

Lemma buzzer_at_5_eq :
  buzzer_at_5
  = store 0 "cal_time" 5 (allocate Buzzer (init seconds_clock unit_samples day_up)).
Proof.
  rewrite !run_cons. unfold run, final; cbn [fold_left].
  rewrite run_new_Buzzer; cbn [snd].
  rewrite run_refresh_at by heap_done. reflexivity.
Qed.

Lemma buzzer_at_3_eq :
  buzzer_at_3
  = store 0 "cal_time" 3
      (store 0 "cal_time" 5 (allocate Buzzer (init seconds_clock unit_samples day_up))).
Proof.
  unfold final at 1. rewrite buzzer_at_5_eq.
  rewrite run_refresh_at by heap_done. reflexivity.
Qed.

(** C8, as stated, fails: under a clock that never goes back, a Buzzer
    whose inherited [refresh] is called with the time 5 and then with the
    time 3 has its [cal_time] go from 5 down to 3. *)
Lemma buzzer_cal_time_goes_back :
  monotone seconds_clock /\
  attr buzzer_at_5 0 "cal_time" = Some 5 /\
  attr buzzer_at_3 0 "cal_time" = Some 3 /\
  ~ cal_time_le (attr buzzer_at_5 0 "cal_time") (attr buzzer_at_3 0 "cal_time").
Proof.
  assert (H5 : attr buzzer_at_5 0 "cal_time" = Some 5).
  { rewrite buzzer_at_5_eq. heap_done. }
  assert (H3 : attr buzzer_at_3 0 "cal_time" = Some 3).
  { rewrite buzzer_at_3_eq. heap_done. }
  split; [exact seconds_clock_monotone|]. split; [exact H5|]. split; [exact H3|].
  rewrite H5, H3. cbn. lra.
Qed.

(** C5, as stated, fails: a Carbonator with a negative response delay and a
    negative uncertainty is constructed, and holds both. *)
Lemma negative_Carbonator_is_constructed :
  outcome (invoke (new_Carbonator (-1) (-1))) (init seconds_clock unit_samples day_up)
    = inr (VRef 0) /\
  attr (final (invoke (new_Carbonator (-1) (-1))) (init seconds_clock unit_samples day_up))
       0 "response_delay" = Some (-1) /\
  attr (final (invoke (new_Carbonator (-1) (-1))) (init seconds_clock unit_samples day_up))
       0 "uncertainty" = Some (-1).
Proof.
  unfold outcome, final. rewrite run_new_Carbonator. cbn [fst snd].
  split; [reflexivity|]. split; heap_done.
Qed.

(** C6, as stated, fails: [Fizzer(carbonation=1, time_constant_days=0)] is
    constructed, and the division by zero is met in [get_carbonation]. *)
Lemma zero_time_constant_is_constructed :
  outcome (invoke (new_Fizzer 1 0)) (init seconds_clock unit_samples day_up)
    = inr (VRef 0) /\
  outcome (Fizzer_get_carbonation 0)
          (final (invoke (new_Fizzer 1 0)) (init seconds_clock unit_samples day_up))
    = inl ZeroDivisionError.
Proof.
  unfold outcome, final. rewrite run_new_Fizzer. cbn [fst snd].
  split; [reflexivity|].
  replace (0 * day_sec) with 0 by ring.
  erewrite run_get_carbonation_zero; [done | heap_done..].
Qed.

Lemma class_at_lookup s l c :
  class_at s l = Some c -> exists o, heap s !! l = Some o /\ ob_class o = c.
Proof.
  unfold class_at. destruct (heap s !! l) as [o|]; [|discriminate].
  cbn. intros [= <-]. by exists o.
Qed.

Lemma lookup_store_ne s self n v l :
  l <> self -> heap (store self n v s) !! l = heap s !! l.
Proof.
  intros Hne. unfold store, with_heap; cbn [heap].
  by rewrite list_lookup_alter_ne.
Qed.

Lemma fizzer_and_meter_Fizzer :
  class_at (run [new_Fizzer 1 1; new_Fizzmeter (1 / 2) (1 / 10) 1]
                (init seconds_clock unit_samples day_up)) 0 = Some Fizzer.
Proof. sample. heap_done. Qed.

Lemma fizzer_and_meter_class : class_at fizzer_and_meter 1 = Some Fizzmeter.
Proof. sample. heap_done. Qed.

Lemma fizzer_and_meter_lookup :
  exists o, heap fizzer_and_meter !! 0%nat = Some o /\ public_Fizzer o.
Proof.
  destruct (class_at_lookup _ _ _ fizzer_and_meter_Fizzer) as (o & Ho & Hc).
  exists o. split.
  - rewrite lookup_store_ne by lia. exact Ho.
  - split; [exact Hc|].
    exists seconds_clock, unit_samples, day_up,
      [new_Fizzer 1 1; new_Fizzmeter (1 / 2) (1 / 10) 1], 0%nat. exact Ho.
Qed.

Lemma fizzer_and_meter_sleeps : sleeps fizzer_and_meter (1 / 2).
Proof.
  unfold sleeps. sample. autorewrite with tapes. cbn [os_sleep_max init].
  unfold sleep_max, day_up. lra.
Qed.

Lemma fizzer_and_meter_valid : meter_valid fizzer_and_meter 1.
Proof.
  assert (Hrd : attr fizzer_and_meter 1 "response_delay" = Some (1 / 2))
    by (sample; heap_done).
  assert (Hu : attr fizzer_and_meter 1 "uncertainty" = Some (1 / 10))
    by (sample; heap_done).
  assert (Ht : attr fizzer_and_meter 1 "cal_time" = Some 0)
    by (sample; heap_done).
  assert (Hr : attr fizzer_and_meter 1 "decal_rate" = Some (1 * day_sec))
    by (sample; heap_done).
  assert (Hnow : clock fizzer_and_meter (ticks fizzer_and_meter) = 2).
  { sample. autorewrite with tapes. cbn [clock ticks init].
    unfold seconds_clock. cbn [INR]. lra. }
  split; [|split].
  - intros rd H. rewrite Hrd in H. injection H as <-.
    exact fizzer_and_meter_sleeps.
  - intros u H. rewrite Hu in H. injection H as <-. lra.
  - intros ct dr H1 H2. rewrite Ht in H1. rewrite Hr in H2.
    injection H1 as <-. injection H2 as <-. rewrite Hnow. unfold day_sec. lra.
Qed.

Lemma measure_never_returns_witness :
  outcome (Fizzmeter_measure 1 0) fizzer_and_meter = inl AttributeError.
Proof.
  destruct fizzer_and_meter_lookup as (o & Ho & Hpub).
  exact (proj1 (proj2 (measure_never_returns fizzer_and_meter 1 0 o
                         Ho Hpub fizzer_and_meter_class))
               fizzer_and_meter_valid).
Defined.

Lemma fizzer_and_negative_meter_Fizzer :
  class_at fizzer_and_negative_meter 0 = Some Fizzer.
Proof. sample. heap_done. Qed.

Lemma fizzer_and_negative_meter_delay :
  attr fizzer_and_negative_meter 1 "response_delay" = Some (-1).
Proof. sample. heap_done. Qed.

Lemma fizzer_and_negative_meter_class :
  class_at fizzer_and_negative_meter 1 = Some Fizzmeter.
Proof. sample. heap_done. Qed.

(** C10, as stated, fails: with a Fizzer made by its constructor and a
    Fizzmeter whose response delay is -1, [measure] raises [ValueError], at
    its [time.sleep], and not [AttributeError]. *)
Lemma measure_raises_ValueError :
  (exists o, heap fizzer_and_negative_meter !! 0%nat = Some o /\ public_Fizzer o) /\
  class_at fizzer_and_negative_meter 1 = Some Fizzmeter /\
  attr fizzer_and_negative_meter 1 "response_delay" = Some (-1) /\
  outcome (Fizzmeter_measure 1 0) fizzer_and_negative_meter = inl ValueError.
Proof.
  split; [|split; [exact fizzer_and_negative_meter_class
                  |split; [exact fizzer_and_negative_meter_delay|]]].
  - destruct (class_at_lookup _ _ _ fizzer_and_negative_meter_Fizzer)
      as (o & Ho & Hc).
    exists o. split; [exact Ho|]. split; [exact Hc|].
    exists seconds_clock, unit_samples, day_up,
      [new_Fizzer 1 1; new_Fizzmeter (-1) (1 / 10) 1], 0%nat. exact Ho.
  - pose proof fizzer_and_negative_meter_delay as Hrd.
    unfold outcome.
    assert (H : exists s', Fizzmeter_measure 1 0 fizzer_and_negative_meter
                           = (inl ValueError, s')) by (eexists; run).
    destruct H as [s' ->]. reflexivity.
Qed.

(** * More of the module *)

(** ** Fizzer.add_carbonation and Fizzer.refresh *)

Lemma run_add_carbonation s self c0 x :
  class_at s self = Some Fizzer ->
  attr s self "carbonation" = Some c0 ->
  Fizzer_add_carbonation self x s =
  (inr tt,
   store self "cal_time" (clock s (ticks s))
     (tick (store self "carbonation" (c0 + x) s))).
Proof. intros Hc Hcarb. run. Qed.

Lemma run_Fizzer_refresh s self c :
  class_at s self = Some c ->
  Fizzer_refresh self s = (inr tt, store self "cal_time" (clock s (ticks s)) (tick s)).
Proof. intros Hc. run. Qed.

(** X1.  [add_carbonation] adds the amount to the carbonation as it is stored,
    whatever the sign of the amount and without the decay of the time since
    the last calibration, and sets [cal_time] to the time it reads; no other
    attribute of the Fizzer changes. *)
Theorem add_carbonation_adds s self c0 x :
  class_at s self = Some Fizzer ->
  attr s self "carbonation" = Some c0 ->
  outcome (Fizzer_add_carbonation self x) s = inr tt /\
  attr (final (Fizzer_add_carbonation self x) s) self "carbonation" = Some (c0 + x) /\
  attr (final (Fizzer_add_carbonation self x) s) self "cal_time"
    = Some (clock s (ticks s)) /\
  (forall n, n <> "carbonation" -> n <> "cal_time" ->
     attr (final (Fizzer_add_carbonation self x) s) self n = attr s self n).
Proof.
  intros Hc Hcarb. unfold outcome, final.
  rewrite (run_add_carbonation s self c0 x) by done. cbn [fst snd].
  split; [done|]. split; [heap_done|]. split; [heap_done|].
  intros n Hn1 Hn2.
  rewrite attr_store, decide_False by (intros [_ ?]; congruence).
  rewrite attr_tick, attr_store, decide_False by (intros [_ ?]; congruence).
  done.
Qed.

(** X2.  A read after [add_carbonation] decays the sum from the time of the
    addition: the decay of the old carbonation over the time before the
    addition is lost. *)
Theorem add_carbonation_then_read s self c0 x T :
  class_at s self = Some Fizzer ->
  attr s self "carbonation" = Some c0 ->
  attr s self "time_constant_sec" = Some T ->
  T <> 0 ->
  outcome (Fizzer_get_carbonation self) (final (Fizzer_add_carbonation self x) s)
  = inr ((c0 + x) * exp (- (clock s (S (ticks s)) - clock s (ticks s)) / T)).
Proof.
  intros Hc Hcarb HT HT0. unfold outcome, final.
  rewrite (run_add_carbonation s self c0 x) by done. cbn [snd].
  erewrite run_get_carbonation; [reflexivity | heap_done.. | done].
Qed.

(** X3.  [refresh] on a Fizzer sets [cal_time] and leaves the carbonation: the
    next read decays the carbonation from the time of the refresh, whatever
    the calibration time was before. *)
Theorem refresh_then_read s self c0 T :
  class_at s self = Some Fizzer ->
  attr s self "carbonation" = Some c0 ->
  attr s self "time_constant_sec" = Some T ->
  T <> 0 ->
  outcome (Fizzer_refresh self) s = inr tt /\
  attr (final (Fizzer_refresh self) s) self "carbonation" = Some c0 /\
  outcome (Fizzer_get_carbonation self) (final (Fizzer_refresh self) s)
  = inr (c0 * exp (- (clock s (S (ticks s)) - clock s (ticks s)) / T)).
Proof.
  intros Hc Hcarb HT HT0. unfold outcome, final.
  rewrite (run_Fizzer_refresh s self Fizzer) by done. cbn [fst snd].
  split; [done|]. split; [heap_done|].
  erewrite run_get_carbonation; [reflexivity | heap_done.. | done].
Qed.

(** ** Reads compose *)

Lemma decay_compose c t0 t1 t2 T :
  T <> 0 ->
  c * exp (- (t1 - t0) / T) * exp (- (t2 - t1) / T) = c * exp (- (t2 - t0) / T).
Proof.
  intros HT. rewrite Rmult_assoc, <- exp_plus. do 2 f_equal. by field.
Qed.

(** X4.  A read in between changes nothing for a later read: two reads in a row
    return, at the second, what one read at that time returns. *)
Theorem reads_compose s self c0 T t0 :
  attr s self "carbonation" = Some c0 ->
  attr s self "time_constant_sec" = Some T ->
  attr s self "cal_time" = Some t0 ->
  T <> 0 ->
  outcome (Fizzer_get_carbonation self) (final (Fizzer_get_carbonation self) s)
  = inr (c0 * exp (- (clock s (S (ticks s)) - t0) / T)).
Proof.
  intros Hcarb HT Hcal HT0.
  destruct (attr_class_at _ _ _ _ Hcal) as [c Hc].
  unfold outcome, final.
  rewrite (run_get_carbonation s self c0 T t0 c) by done. cbn [snd].
  erewrite run_get_carbonation; [ | heap_done.. | done].
  cbn [fst]. autorewrite with tapes. by rewrite decay_compose.
Qed.

(** ** Reads only decay *)

Lemma exp_nonpos q : q <= 0 -> 0 <= exp q <= 1.
Proof.
  intros Hq. split; [left; apply exp_pos|].
  destruct (Rle_lt_or_eq_dec _ _ Hq) as [Hlt| ->].
  - left. rewrite <- exp_0. by apply exp_increasing.
  - rewrite exp_0. lra.
Qed.

Lemma elapsed_nonpos t t0 T : 0 < T -> t0 <= t -> - (t - t0) / T <= 0.
Proof.
  intros HT Ht. unfold Rdiv.
  pose proof (Rinv_0_lt_compat T HT) as Hi.
  assert (H : 0 <= (t - t0) * / T) by (apply Rmult_le_pos; lra).
  lra.
Qed.

Lemma decay_bounds c0 q : 0 <= c0 -> q <= 0 -> 0 <= c0 * exp q <= c0.
Proof.
  intros Hc Hq. destruct (exp_nonpos q Hq) as [He0 He1]. split.
  - apply Rmult_le_pos; lra.
  - rewrite <- (Rmult_1_r c0) at 2. apply Rmult_le_compat_l; lra.
Qed.

(** X5.  With a positive time constant and a calibration time that is not in the
    future, a read of a carbonation that is not negative returns a value
    between 0 and the stored carbonation, both included. *)
Theorem read_only_decays s self c0 T t0 :
  attr s self "carbonation" = Some c0 ->
  attr s self "time_constant_sec" = Some T ->
  attr s self "cal_time" = Some t0 ->
  0 < T ->
  t0 <= clock s (ticks s) ->
  0 <= c0 ->
  exists v,
    outcome (Fizzer_get_carbonation self) s = inr v /\
    0 <= v <= c0.
Proof.
  intros Hcarb HT Hcal HT0 Ht Hc0.
  destruct (attr_class_at _ _ _ _ Hcal) as [c Hc].
  unfold outcome.
  rewrite (run_get_carbonation s self c0 T t0 c) by (done || lra).
  cbn [fst]. eexists. split; [reflexivity|].
  pose proof (elapsed_nonpos _ _ _ HT0 Ht) as Hq.
  by apply decay_bounds.
Qed.

(** X6.  A read that raises has changed no instance, and the exceptions it can
    raise are [AttributeError] (an attribute is not set), [ZeroDivisionError]
    (the time constant is 0) and, for a location without an instance,
    [SystemError]. *)
Theorem failed_read_changes_nothing s self e :
  outcome (Fizzer_get_carbonation self) s = inl e ->
  heap (final (Fizzer_get_carbonation self) s) = heap s /\
  (e = AttributeError \/ e = ZeroDivisionError \/ e = SystemError).
Proof.
  unfold outcome, final. intros Hret.
  assert (Hcases :
    (exists v s', Fizzer_get_carbonation self s = (inr v, s')) \/
    (exists e', Fizzer_get_carbonation self s = (inl e', tick s) /\
                (e' = AttributeError \/ e' = ZeroDivisionError \/ e' = SystemError))).
  { destruct (class_at s self) as [c|] eqn:Hc;
      [|right; exists SystemError; split; [run | tauto]].
    destruct (attr s self "cal_time") as [t0|] eqn:Ht;
      [|right; exists AttributeError; split; [run | tauto]].
    destruct (attr s self "carbonation") as [c0|] eqn:Hcarb;
      [|right; exists AttributeError; split; [run | tauto]].
    destruct (attr s self "time_constant_sec") as [T|] eqn:HT;
      [|right; exists AttributeError; split; [run | tauto]].
    destruct (Req_dec_T T 0) as [->|HT0];
      [right; exists ZeroDivisionError; split; [run | tauto]|].
    left. do 2 eexists. by apply (run_get_carbonation s self c0 T t0 c). }
  destruct Hcases as [(v & s' & H)|(e' & H & He)]; rewrite H in Hret |- *.
  - discriminate Hret.
  - cbn in Hret. injection Hret as <-. by split.
Qed.

(** ** Fizzer.get_fizziness *)

(** X7.  [get_fizziness] changes the heap as [get_carbonation] does.  Under the
    conditions of [read_only_decays] the fizziness it returns is at least 0,
    at most 1, and at most the fizziness of the stored carbonation. *)
Theorem fizziness_of_a_read s self c0 T t0 :
  attr s self "carbonation" = Some c0 ->
  attr s self "time_constant_sec" = Some T ->
  attr s self "cal_time" = Some t0 ->
  0 < T ->
  t0 <= clock s (ticks s) ->
  0 <= c0 ->
  final (Fizzer_get_fizziness self) s = final (Fizzer_get_carbonation self) s /\
  exists f,
    outcome (Fizzer_get_fizziness self) s = inr f /\
    0 <= f <= 1 /\
    f <= shifted_logistic c0.
Proof.
  intros Hcarb HT Hcal HT0 Ht Hc0.
  destruct (attr_class_at _ _ _ _ Hcal) as [c Hc].
  pose proof (run_get_carbonation s self c0 T t0 c Hc Hcarb HT Hcal) as Hrun.
  specialize (Hrun ltac:(lra)).
  unfold outcome, final.
  rewrite (run_get_fizziness _ _ _ _ Hrun), Hrun. cbn [fst snd].
  split; [done|]. eexists. split; [reflexivity|].
  pose proof (elapsed_nonpos _ _ _ HT0 Ht) as Hq.
  destruct (decay_bounds c0 _ Hc0 Hq) as [Hv0 Hv1].
  pose proof (shifted_logistic_le _ _ Hv0) as H0.
  rewrite shifted_logistic_0 in H0.
  pose proof (shifted_logistic_bounds
                (c0 * exp (- (clock s (ticks s) - t0) / T))) as [_ H1].
  split; [lra|]. by apply shifted_logistic_le.
Qed.

(** ** Fizzmeter.refresh *)

(** X9.  The [refresh] of a Fizzmeter is one step of a random walk: it adds to the
    bias a sample of deviation [(now - cal_time) * decal_rate], sets
    [cal_time] to the time it read and draws one sample.  With a deviation
    of 0 (no time gone by, or a decalibration rate of 0) the bias stays as
    it was. *)
Theorem Fizzmeter_refresh_walks s self c t0 b r :
  class_at s self = Some c ->
  attr s self "cal_time" = Some t0 ->
  attr s self "bias" = Some b ->
  attr s self "decal_rate" = Some r ->
  0 <= (clock s (ticks s) - t0) * r ->
  outcome (Fizzmeter_refresh self) s = inr tt /\
  attr (final (Fizzmeter_refresh self) s) self "bias"
    = Some (b + (clock s (ticks s) - t0) * r * standard_normal s (draws s)) /\
  attr (final (Fizzmeter_refresh self) s) self "cal_time" = Some (clock s (ticks s)) /\
  draws (final (Fizzmeter_refresh self) s) = S (draws s) /\
  ((clock s (ticks s) - t0) * r = 0 ->
   attr (final (Fizzmeter_refresh self) s) self "bias" = Some b).
Proof.
  intros Hc Ht Hb Hr Hsc. unfold outcome, final.
  rewrite (run_Fizzmeter_refresh s self c t0 b r) by done. cbn [fst snd].
  assert (Hbias :
    attr (store self "cal_time" (clock s (ticks s))
            (store self "bias"
               (b + (0 + (clock s (ticks s) - t0) * r * standard_normal s (draws s)))
               (drew (tick s)))) self "bias"
    = Some (b + (clock s (ticks s) - t0) * r * standard_normal s (draws s))).
  { heap_simpl. rewrite Hc. cbn. f_equal. ring. }
  split; [done|]. split; [exact Hbias|]. split; [heap_done|]. split; [done|].
  intros H0. rewrite Hbias, H0. f_equal. ring.
Qed.

(** X10.  A [refresh] of a Fizzmeter that raises has changed no instance.  It
    raises [ValueError] when the deviation is negative (the clock has gone
    back behind [cal_time], or the decalibration rate is negative),
    [AttributeError] when an attribute is not set. *)
Theorem failed_Fizzmeter_refresh_changes_nothing s self e :
  outcome (Fizzmeter_refresh self) s = inl e ->
  heap (final (Fizzmeter_refresh self) s) = heap s /\
  (e = AttributeError \/ e = ValueError \/ e = SystemError) /\
  (forall t0 r,
     attr s self "cal_time" = Some t0 -> attr s self "decal_rate" = Some r ->
     is_Some (attr s self "bias") ->
     e = ValueError /\ (clock s (ticks s) - t0) * r < 0).
Proof.
  unfold outcome, final. intros Hret.
  destruct (class_at s self) as [c|] eqn:Hc.
  2:{ assert (H : Fizzmeter_refresh self s = (inl SystemError, tick s)) by run.
      rewrite H in Hret |- *. cbn in Hret. injection Hret as <-.
      split; [done|]. split; [tauto|]. intros t0 r Ht.
      destruct (attr_class_at _ _ _ _ Ht) as [? ?]. congruence. }
  destruct (attr s self "cal_time") as [t0|] eqn:Ht.
  2:{ assert (H : Fizzmeter_refresh self s = (inl AttributeError, tick s)) by run.
      rewrite H in Hret |- *. cbn in Hret. injection Hret as <-.
      split; [done|]. split; [tauto|]. intros ? ? [=]. }
  destruct (attr s self "bias") as [b|] eqn:Hb.
  2:{ assert (H : Fizzmeter_refresh self s = (inl AttributeError, tick s)) by run.
      rewrite H in Hret |- *. cbn in Hret. injection Hret as <-.
      split; [done|]. split; [tauto|]. intros ? ? _ _ [? [=]]. }
  destruct (attr s self "decal_rate") as [r|] eqn:Hr.
  2:{ assert (H : Fizzmeter_refresh self s = (inl AttributeError, tick s)) by run.
      rewrite H in Hret |- *. cbn in Hret. injection Hret as <-.
      split; [done|]. split; [tauto|]. intros ? ? _ [=]. }
  destruct (Rlt_le_dec ((clock s (ticks s) - t0) * r) 0) as [Hneg|Hpos].
  - assert (H : Fizzmeter_refresh self s = (inl ValueError, tick s)) by run.
    rewrite H in Hret |- *. cbn in Hret. injection Hret as <-.
    split; [done|]. split; [tauto|]. by intros ? ? [= <-] [= <-] _.
  - rewrite (run_Fizzmeter_refresh s self c t0 b r) in Hret by done.
    discriminate Hret.
Qed.

(** ** Fizzmeter.measure and Fizzmeter.calibrate *)

(** X11.  A [measure] that raises at the read of [fizzer.fizziness] is not
    without effect.  For a meter with all its attributes set, a response
    delay for which [time.sleep] returns, and a drift scale and an
    uncertainty that are not negative, and a target without [fizziness]:
    [measure] raises [AttributeError], the meter has slept, its bias has
    drifted and its [cal_time] is the time read; two samples are drawn. *)
Theorem failed_measure_refreshes_the_meter s meter fizzer c rd t0 b r u :
  class_at s meter = Some Fizzmeter ->
  class_at s fizzer = Some c ->
  attr s fizzer "fizziness" = None ->
  attr s meter "response_delay" = Some rd ->
  attr s meter "cal_time" = Some t0 ->
  attr s meter "bias" = Some b ->
  attr s meter "decal_rate" = Some r ->
  attr s meter "uncertainty" = Some u ->
  sleeps s rd -> 0 <= (clock s (ticks s) - t0) * r -> 0 <= u ->
  outcome (Fizzmeter_measure meter fizzer) s = inl AttributeError /\
  attr (final (Fizzmeter_measure meter fizzer) s) meter "bias"
    = Some (b + (clock s (ticks s) - t0) * r * standard_normal s (draws s)) /\
  attr (final (Fizzmeter_measure meter fizzer) s) meter "cal_time"
    = Some (clock s (ticks s)) /\
  draws (final (Fizzmeter_measure meter fizzer) s) = S (S (draws s)).
Proof.
  intros Hm Hf Hfizz Hrd Ht Hb Hr Hu Hrd0 Hsc Hu0. unfold outcome, final.
  rewrite (run_measure s meter fizzer c rd t0 b r u) by done. cbn [fst snd].
  split; [done|]. split; [|split; [heap_done | done]].
  heap_simpl. rewrite Hm. cbn. f_equal. ring.
Qed.

Lemma run_measure_field s meter fizzer rd t0 b r u f :
  class_at s meter = Some Fizzmeter ->
  attr s fizzer "fizziness" = Some f ->
  attr s meter "response_delay" = Some rd ->
  attr s meter "cal_time" = Some t0 ->
  attr s meter "bias" = Some b ->
  attr s meter "decal_rate" = Some r ->
  attr s meter "uncertainty" = Some u ->
  sleeps s rd -> 0 <= (clock s (ticks s) - t0) * r -> 0 <= u ->
  Fizzmeter_measure meter fizzer s =
  (inr (f + (b + (0 + (clock s (ticks s) - t0) * r * standard_normal s (draws s)))
          + (0 + u * standard_normal s (S (draws s)))),
   drew
     (store meter "cal_time" (clock s (ticks s))
        (store meter "bias"
           (b + (0 + (clock s (ticks s) - t0) * r * standard_normal s (draws s)))
           (drew (tick s))))).
Proof. intros Hm Hfizz Hrd Ht Hb Hr Hu Hrd0 Hsc Hu0. run. Qed.

(** X12.  For a meter with all its attributes set, a response delay for
    which [time.sleep] returns, and a drift scale and an uncertainty that
    are not negative, and a target of class Fizzer that does have an
    attribute [fizziness]: [measure] returns that attribute as it is stored,
    plus the bias after its drift, plus a noise sample of deviation
    [uncertainty].  It does not call [get_fizziness]: the target is left as
    it was, its carbonation not decayed and its [cal_time] not set. *)
Theorem measure_reads_the_stored_field s meter fizzer rd t0 b r u f :
  class_at s meter = Some Fizzmeter ->
  class_at s fizzer = Some Fizzer ->
  attr s fizzer "fizziness" = Some f ->
  attr s meter "response_delay" = Some rd ->
  attr s meter "cal_time" = Some t0 ->
  attr s meter "bias" = Some b ->
  attr s meter "decal_rate" = Some r ->
  attr s meter "uncertainty" = Some u ->
  sleeps s rd -> 0 <= (clock s (ticks s) - t0) * r -> 0 <= u ->
  outcome (Fizzmeter_measure meter fizzer) s
    = inr (f + (b + (clock s (ticks s) - t0) * r * standard_normal s (draws s))
             + u * standard_normal s (S (draws s))) /\
  heap (final (Fizzmeter_measure meter fizzer) s) !! fizzer = heap s !! fizzer.
Proof.
  intros Hm Hf Hfizz Hrd Ht Hb Hr Hu Hrd0 Hsc Hu0. unfold outcome, final.
  rewrite (run_measure_field s meter fizzer rd t0 b r u f) by done. cbn [fst snd].
  assert (Hne : fizzer <> meter) by (intros ->; congruence).
  split; [f_equal; ring|].
  unfold drew; cbn [heap]. rewrite !lookup_store_ne by done. reflexivity.
Qed.

(** X13.  For a meter with its attributes set and a calibration delay for
    which [time.sleep] returns: when no drift is due (no time gone by since
    the last calibration, or a decalibration rate of 0), [calibrate] returns
    and does leave the bias at 0, with [cal_time] the time read. *)
Theorem calibrate_without_drift s self d b t0 r :
  class_at s self = Some Fizzmeter ->
  attr s self "cal_delay" = Some d ->
  attr s self "bias" = Some b ->
  attr s self "cal_time" = Some t0 ->
  attr s self "decal_rate" = Some r ->
  sleeps s d ->
  (clock s (ticks s) - t0) * r = 0 ->
  outcome (Fizzmeter_calibrate self) s = inr tt /\
  attr (final (Fizzmeter_calibrate self) s) self "bias" = Some 0 /\
  attr (final (Fizzmeter_calibrate self) s) self "cal_time" = Some (clock s (ticks s)).
Proof.
  intros Hc Hd Hb Ht Hr Hd0 Hsc. unfold outcome, final.
  rewrite (run_calibrate s self d b t0 r) by (done || lra). cbn [fst snd].
  split; [done|]. split; [|heap_done].
  heap_simpl. rewrite Hc, Hsc. cbn. f_equal. ring.
Qed.

(** ** Carbonator.get_uncertainty *)

Lemma run_get_uncertainty s self u :
  class_at s self = Some Carbonator ->
  attr s self "uncertainty" = Some u ->
  Carbonator_get_uncertainty self s =
  (inr u, store self "cal_time" (clock s (ticks s)) (tick s)).
Proof. intros Hc Hu. run. Qed.

(** X14.  [get_uncertainty] returns the uncertainty the Carbonator was given,
    whatever the time read and whatever the decalibration rate, leaves it
    stored, and sets [cal_time] to the time read. *)
Theorem get_uncertainty_is_constant s self u :
  class_at s self = Some Carbonator ->
  attr s self "uncertainty" = Some u ->
  outcome (Carbonator_get_uncertainty self) s = inr u /\
  attr (final (Carbonator_get_uncertainty self) s) self "uncertainty" = Some u /\
  attr (final (Carbonator_get_uncertainty self) s) self "cal_time"
    = Some (clock s (ticks s)) /\
  outcome (Carbonator_get_uncertainty self)
          (final (Carbonator_get_uncertainty self) s) = inr u.
Proof.
  intros Hc Hu. unfold outcome, final.
  rewrite (run_get_uncertainty s self u) by done. cbn [fst snd].
  split; [done|]. split; [heap_done|]. split; [heap_done|].
  rewrite (run_get_uncertainty _ self u); [done | heap_done..].
Qed.

(** ** Device, Buzzer and BuzzMeter *)

Lemma run_new_Device s decal_rate cal_delay :
  invoke (new_Device decal_rate cal_delay) s =
  (inl TypeError,
   store (length (heap s)) "cal_delay" cal_delay
     (store (length (heap s)) "decal_rate" decal_rate (allocate Device s))).
Proof. run. Qed.

Lemma run_new_BuzzMeter s :
  invoke new_BuzzMeter s = (inr (VRef (length (heap s))), allocate BuzzMeter s).
Proof. run. Qed.

(** X15.  A plain [Device] cannot be constructed: [__init__] calls
    [self.refresh()], and the only [refresh] a [Device] has needs the time as
    its argument.  The call raises [TypeError] after the rate and the delay
    are stored, and before any [cal_time] is. *)
Theorem new_Device_raises s decal_rate cal_delay :
  outcome (invoke (new_Device decal_rate cal_delay)) s = inl TypeError /\
  attr (final (invoke (new_Device decal_rate cal_delay)) s)
       (length (heap s)) "decal_rate" = Some decal_rate /\
  attr (final (invoke (new_Device decal_rate cal_delay)) s)
       (length (heap s)) "cal_time" = None.
Proof.
  unfold outcome, final. rewrite run_new_Device. cbn [fst snd].
  split; [done|]. split; heap_done.
Qed.

(** X16.  [Buzzer()] and [BuzzMeter()] return an instance without any attribute
    (their [__init__] does not call that of [Device]: no rate, no delay, no
    [cal_time]), and [refresh()] on such an instance raises [TypeError]. *)
Theorem stub_devices_hold_nothing s :
  outcome (invoke new_Buzzer) s = inr (VRef (length (heap s))) /\
  (forall n, attr (final (invoke new_Buzzer) s) (length (heap s)) n = None) /\
  outcome (invoke (refresh (length (heap s)))) (final (invoke new_Buzzer) s)
    = inl TypeError /\
  outcome (invoke new_BuzzMeter) s = inr (VRef (length (heap s))) /\
  (forall n, attr (final (invoke new_BuzzMeter) s) (length (heap s)) n = None) /\
  outcome (invoke (refresh (length (heap s)))) (final (invoke new_BuzzMeter) s)
    = inl TypeError.
Proof.
  unfold outcome, final. rewrite run_new_Buzzer, run_new_BuzzMeter. cbn [fst snd].
  split; [done|]. split; [intros n; heap_done|]. split.
  { assert (H : exists s', invoke (refresh (length (heap s))) (allocate Buzzer s)
                           = (inl TypeError, s')) by (eexists; run).
    by destruct H as [s' ->]. }
  split; [done|]. split; [intros n; heap_done|].
  assert (H : exists s', invoke (refresh (length (heap s))) (allocate BuzzMeter s)
                         = (inl TypeError, s')) by (eexists; run).
  by destruct H as [s' ->].
Qed.

(** ** What a call can change *)

Lemma lookup_fresh_ne s l o : heap s !! l = Some o -> length (heap s) <> l.
Proof. intros H. apply lookup_lt_Some in H. lia. Qed.

#[global] Instance kept_stable l o : Stable (kept l o) (fun _ => False).
Proof.
  split; unfold kept.
  - done.
  - done.
  - intros c s H. unfold allocate, with_heap; cbn [heap].
    rewrite lookup_app_l; [done | by eapply lookup_lt_Some].
  - done.
Qed.

Lemma kept_setattr l o self n v :
  self <> l -> preserves (kept l o) (setattr self n v).
Proof.
  intros Hne s Hs. unfold final, setattr, kept in *.
  destruct (heap s !! self); cbn [snd]; [|done].
  by rewrite lookup_store_ne.
Qed.

Lemma kept_new {A : Type} l o c (k : nat -> M A) :
  (forall self, self <> l -> preserves (kept l o) (k self)) ->
  preserves (kept l o) (bind (object_new c) k).
Proof.
  intros Hk s Hs. rewrite final_bind. unfold outcome, final, object_new; cbn [fst snd].
  apply Hk; [by eapply lookup_fresh_ne | by apply stable_allocate].
Qed.

Ltac frame :=
  repeat first
    [ apply kept_new; intros
    | apply preserves_bind; [|intros]
    | apply preserves_ret
    | apply preserves_raise
    | apply preserves_getattr
    | apply preserves_type_of
    | apply preserves_truediv
    | apply preserves_time_sleep
    | apply kept_setattr; first [assumption | congruence]
    | eapply preserves_time_time; tc_solve
    | eapply preserves_normal; tc_solve
    | match goal with
      | |- preserves _ (match ?c with _ => _ end) => destruct c
      | |- preserves _ (if decide _ then _ else _) => case_decide
      end
    | progress autounfold with methods ].

(** X17.  A call changes no instance but the one it is made on, and a constructor
    call changes no instance that exists: whatever the call and however it
    ends, every other object of the heap, the target of [measure] and of
    [carbonate] included, is after the call what it was before. *)
Theorem call_changes_only_its_receiver s call l o :
  heap s !! l = Some o ->
  receiver call <> Some l ->
  heap (final (invoke call) s) !! l = Some o.
Proof.
  intros Hl Hrec.
  assert (H : preserves (kept l o) (invoke call)); [|by apply H].
  destruct call; cbn in Hrec; frame.
Qed.

#[global] Instance holds_stable l n v : Stable (holds l n v) (fun n' => n' <> n).
Proof.
  split; unfold holds.
  - intros s H. by rewrite attr_tick.
  - intros s H. by rewrite attr_drew.
  - intros c s H. by rewrite attr_allocate.
  - intros self n' v' s Hn H. rewrite attr_store.
    rewrite decide_False by (intros [_ ?]; congruence). done.
Qed.

Lemma holds_setattr l n v self n' v' :
  self <> l -> preserves (holds l n v) (setattr self n' v').
Proof.
  intros Hne s Hs. unfold final, setattr, holds in *.
  destruct (heap s !! self); cbn [snd]; [|done].
  rewrite attr_store. rewrite decide_False by (intros [? _]; congruence). done.
Qed.

Lemma holds_new {A : Type} l n v c (k : nat -> M A) :
  (forall self, self <> l -> preserves (holds l n v) (k self)) ->
  preserves (holds l n v) (bind (object_new c) k).
Proof.
  intros Hk s Hs. rewrite final_bind. unfold outcome, final, object_new; cbn [fst snd].
  apply Hk; [|by apply stable_allocate].
  unfold holds, attr in Hs.
  destruct (heap s !! l) as [o|] eqn:Hl; [|discriminate].
  by eapply lookup_fresh_ne.
Qed.

Ltac fixed Hn :=
  repeat first
    [ apply holds_new; intros
    | apply preserves_bind; [|intros]
    | apply preserves_ret
    | apply preserves_raise
    | apply preserves_getattr
    | apply preserves_type_of
    | apply preserves_truediv
    | apply preserves_time_sleep
    | apply holds_setattr; assumption
    | eapply preserves_setattr;
      [ tc_solve | cbv beta; intros <-; apply Hn; unfold mutable; tauto ]
    | eapply preserves_time_time; tc_solve
    | eapply preserves_normal; tc_solve
    | match goal with
      | |- preserves _ (match ?c with _ => _ end) => destruct c
      | |- preserves _ (if decide _ then _ else _) => case_decide
      end
    | progress autounfold with methods ].

(** X18.  The configuration of an instance is fixed: no call of the public
    interface changes an attribute other than [carbonation], [bias] and
    [cal_time].  The time constant, the rates, the delays and the
    uncertainties stay what the constructor stored. *)
Theorem configuration_is_fixed s call l n v :
  ~ mutable n ->
  attr s l n = Some v ->
  attr (final (invoke call) s) l n = Some v.
Proof.
  intros Hn Hl.
  assert (H : preserves (holds l n v) (invoke call)); [|by apply H].
  destruct call; fixed Hn.
Qed.

(** ** Calibration times in a run *)

Lemma run_since prog s0 s :
  Forall from_time_source prog -> since s0 0 s -> since s0 0 (run prog s).
Proof.
  revert s. induction prog as [|call prog IH]; intros s Hsrc Hs; [done|].
  apply Forall_cons in Hsrc as [Hcall Hsrc]. rewrite run_cons.
  by apply IH, since_invoke.
Qed.

(** X19.  In a run from the empty heap whose calls take their time from the
    clock, every [cal_time] is a reading of the clock made earlier in the
    run: no instance is ever calibrated at a time that was not read. *)
Theorem cal_time_is_a_reading clock0 samples limit prog l v :
  Forall from_time_source prog ->
  attr (run prog (init clock0 samples limit)) l "cal_time" = Some v ->
  exists j, (j < ticks (run prog (init clock0 samples limit)))%nat /\ v = clock0 j.
Proof.
  intros Hsrc Hv.
  destruct (run_since prog _ _ Hsrc (since_refl (init clock0 samples limit)))
    as (_ & _ & _ & Hl).
  destruct (Hl l) as [Heq|(j & Hj & Heq)]; rewrite Heq in Hv.
  - discriminate Hv.
  - injection Hv as <-. exists j. split; [lia | done].
Qed.

(** X20.  In a run from the empty heap under a clock that never goes back, a read
    of a Fizzer with a positive time constant and a carbonation that is not
    negative returns a value between 0 and the stored carbonation: no
    precondition on the calibration time is left, the run keeps it in the
    past. *)
Theorem read_only_decays_in_a_run clock0 samples limit prog l c0 T t0 :
  monotone clock0 ->
  Forall from_time_source prog ->
  attr (run prog (init clock0 samples limit)) l "carbonation" = Some c0 ->
  attr (run prog (init clock0 samples limit)) l "time_constant_sec" = Some T ->
  attr (run prog (init clock0 samples limit)) l "cal_time" = Some t0 ->
  0 < T ->
  0 <= c0 ->
  exists v,
    outcome (Fizzer_get_carbonation l) (run prog (init clock0 samples limit)) = inr v /\
    0 <= v <= c0.
Proof.
  intros Hm Hsrc Hcarb HT Hcal HT0 Hc0.
  destruct (run_bounded prog (init clock0 samples limit) Hm
              (bounded_init clock0 samples limit) Hsrc) as [Hb _].
  pose proof (Hb l t0 Hcal) as Ht.
  destruct (attr_class_at _ _ _ _ Hcal) as [c Hc].
  unfold outcome.
  rewrite (run_get_carbonation _ l c0 T t0 c) by (done || lra).
  cbn [fst]. eexists. split; [reflexivity|].
  apply decay_bounds; [done | by apply elapsed_nonpos].
Qed.

(** ** The further theorems at sample states *)

Lemma new_fizzer_class : class_at new_fizzer 0 = Some Fizzer.
Proof. sample. heap_done. Qed.

Lemma new_fizzer_carbonation : attr new_fizzer 0 "carbonation" = Some 1.
Proof. sample. heap_done. Qed.

Lemma new_fizzer_time_constant :
  attr new_fizzer 0 "time_constant_sec" = Some (1 * day_sec).
Proof. sample. heap_done. Qed.

Lemma new_fizzer_cal_time : attr new_fizzer 0 "cal_time" = Some 0.
Proof. sample. heap_done. Qed.

Lemma new_fizzer_now : clock new_fizzer (ticks new_fizzer) = 1.
Proof.
  sample. autorewrite with tapes. cbn [clock ticks init].
  unfold seconds_clock. cbn [INR]. reflexivity.
Qed.

Lemma day_sec_pos : 0 < 1 * day_sec.
Proof. unfold day_sec. lra. Qed.

Lemma day_sec_neq_0 : 1 * day_sec <> 0.
Proof. unfold day_sec. lra. Qed.

Lemma add_carbonation_adds_witness :
  attr (final (Fizzer_add_carbonation 0 (-3)) new_fizzer) 0 "carbonation"
  = Some (1 + -3).
Proof.
  exact (proj1 (proj2 (add_carbonation_adds new_fizzer 0 1 (-3)
                         new_fizzer_class new_fizzer_carbonation))).
Defined.

Lemma add_carbonation_then_read_witness :
  outcome (Fizzer_get_carbonation 0) (final (Fizzer_add_carbonation 0 2) new_fizzer)
  = inr ((1 + 2)
         * exp (- (clock new_fizzer (S (ticks new_fizzer))
                   - clock new_fizzer (ticks new_fizzer)) / (1 * day_sec))).
Proof.
  exact (add_carbonation_then_read new_fizzer 0 1 2 (1 * day_sec)
           new_fizzer_class new_fizzer_carbonation new_fizzer_time_constant
           day_sec_neq_0).
Defined.

Lemma refresh_then_read_witness :
  attr (final (Fizzer_refresh 0) new_fizzer) 0 "carbonation" = Some 1.
Proof.
  exact (proj1 (proj2 (refresh_then_read new_fizzer 0 1 (1 * day_sec)
                         new_fizzer_class new_fizzer_carbonation
                         new_fizzer_time_constant day_sec_neq_0))).
Defined.

Lemma reads_compose_witness :
  outcome (Fizzer_get_carbonation 0) (final (Fizzer_get_carbonation 0) new_fizzer)
  = inr (1 * exp (- (clock new_fizzer (S (ticks new_fizzer)) - 0) / (1 * day_sec))).
Proof.
  exact (reads_compose new_fizzer 0 1 (1 * day_sec) 0
           new_fizzer_carbonation new_fizzer_time_constant new_fizzer_cal_time
           day_sec_neq_0).
Defined.

Lemma new_fizzer_in_the_past : 0 <= clock new_fizzer (ticks new_fizzer).
Proof. rewrite new_fizzer_now. lra. Qed.

Lemma read_only_decays_witness :
  exists v,
    outcome (Fizzer_get_carbonation 0) new_fizzer = inr v /\
    0 <= v <= 1.
Proof.
  exact (read_only_decays new_fizzer 0 1 (1 * day_sec) 0
           new_fizzer_carbonation new_fizzer_time_constant new_fizzer_cal_time
           day_sec_pos new_fizzer_in_the_past Rle_0_1).
Defined.

Lemma fizziness_of_a_read_witness :
  exists f,
    outcome (Fizzer_get_fizziness 0) new_fizzer = inr f /\
    0 <= f <= 1 /\ f <= shifted_logistic 1.
Proof.
  exact (proj2 (fizziness_of_a_read new_fizzer 0 1 (1 * day_sec) 0
                  new_fizzer_carbonation new_fizzer_time_constant
                  new_fizzer_cal_time day_sec_pos new_fizzer_in_the_past
                  Rle_0_1)).
Defined.

Lemma instant_fizzer_fails :
  outcome (Fizzer_get_carbonation 0) instant_fizzer = inl ZeroDivisionError.
Proof.
  unfold outcome, final at 1. rewrite run_new_Fizzer. cbn [snd].
  replace (0 * day_sec) with 0 by ring.
  erewrite run_get_carbonation_zero; [done | heap_done..].
Qed.

Lemma failed_read_changes_nothing_witness :
  heap (final (Fizzer_get_carbonation 0) instant_fizzer) = heap instant_fizzer.
Proof.
  exact (proj1 (failed_read_changes_nothing instant_fizzer 0 ZeroDivisionError
                  instant_fizzer_fails)).
Defined.

Lemma drifted_meter_class : class_at drifted_meter 0 = Some Fizzmeter.
Proof. sample. heap_done. Qed.

Lemma drifted_meter_cal_time : attr drifted_meter 0 "cal_time" = Some 0.
Proof. sample. heap_done. Qed.

Lemma drifted_meter_bias : attr drifted_meter 0 "bias" = Some 3.
Proof. sample. heap_done. Qed.

Lemma drifted_meter_decal_rate :
  attr drifted_meter 0 "decal_rate" = Some (1 * day_sec).
Proof. sample. heap_done. Qed.

Lemma drifted_meter_scale :
  0 <= (clock drifted_meter (ticks drifted_meter) - 0) * (1 * day_sec).
Proof.
  unfold drifted_meter. autorewrite with tapes. cbn [clock init].
  unfold day_sec. lra.
Qed.

Lemma Fizzmeter_refresh_walks_witness :
  attr (final (Fizzmeter_refresh 0) drifted_meter) 0 "bias"
  = Some (3 + (clock drifted_meter (ticks drifted_meter) - 0) * (1 * day_sec)
              * standard_normal drifted_meter (draws drifted_meter)).
Proof.
  exact (proj1 (proj2 (Fizzmeter_refresh_walks drifted_meter 0 Fizzmeter 0 3
                         (1 * day_sec) drifted_meter_class drifted_meter_cal_time
                         drifted_meter_bias drifted_meter_decal_rate
                         drifted_meter_scale))).
Defined.

Lemma negative_meter_refresh_fails :
  outcome (Fizzmeter_refresh 1) fizzer_and_negative_meter = inl AttributeError.
Proof.
  pose proof fizzer_and_negative_meter_class as Hc.
  assert (Ht : attr fizzer_and_negative_meter 1 "cal_time" = None)
    by (sample; heap_done).
  unfold outcome.
  assert (H : exists s', Fizzmeter_refresh 1 fizzer_and_negative_meter
                         = (inl AttributeError, s')) by (eexists; run).
  by destruct H as [s' ->].
Qed.

Lemma failed_Fizzmeter_refresh_changes_nothing_witness :
  heap (final (Fizzmeter_refresh 1) fizzer_and_negative_meter)
  = heap fizzer_and_negative_meter.
Proof.
  exact (proj1 (failed_Fizzmeter_refresh_changes_nothing
                  fizzer_and_negative_meter 1 AttributeError
                  negative_meter_refresh_fails)).
Defined.

Lemma fizzer_and_meter_target : class_at fizzer_and_meter 0 = Some Fizzer.
Proof. sample. heap_done. Qed.

Lemma fizzer_and_meter_no_fizziness : attr fizzer_and_meter 0 "fizziness" = None.
Proof. sample. heap_done. Qed.

Lemma fizzer_and_meter_delay :
  attr fizzer_and_meter 1 "response_delay" = Some (1 / 2).
Proof. sample. heap_done. Qed.

Lemma fizzer_and_meter_cal_time : attr fizzer_and_meter 1 "cal_time" = Some 0.
Proof. sample. heap_done. Qed.

Lemma fizzer_and_meter_bias : attr fizzer_and_meter 1 "bias" = Some 0.
Proof. sample. heap_done. Qed.

Lemma fizzer_and_meter_decal_rate :
  attr fizzer_and_meter 1 "decal_rate" = Some (1 * day_sec).
Proof. sample. heap_done. Qed.

Lemma fizzer_and_meter_uncertainty :
  attr fizzer_and_meter 1 "uncertainty" = Some (1 / 10).
Proof. sample. heap_done. Qed.

Lemma fizzer_and_meter_scale :
  0 <= (clock fizzer_and_meter (ticks fizzer_and_meter) - 0) * (1 * day_sec).
Proof.
  sample. autorewrite with tapes. cbn [clock ticks init].
  unfold seconds_clock, day_sec. cbn [INR]. lra.
Qed.

Lemma tenth_nonneg : 0 <= 1 / 10.
Proof. lra. Qed.

Lemma failed_measure_refreshes_the_meter_witness :
  outcome (Fizzmeter_measure 1 0) fizzer_and_meter = inl AttributeError /\
  attr (final (Fizzmeter_measure 1 0) fizzer_and_meter) 1 "cal_time"
  = Some (clock fizzer_and_meter (ticks fizzer_and_meter)).
Proof.
  destruct (failed_measure_refreshes_the_meter fizzer_and_meter 1 0 Fizzer
              (1 / 2) 0 0 (1 * day_sec) (1 / 10)
              fizzer_and_meter_class fizzer_and_meter_target
              fizzer_and_meter_no_fizziness fizzer_and_meter_delay
              fizzer_and_meter_cal_time fizzer_and_meter_bias
              fizzer_and_meter_decal_rate fizzer_and_meter_uncertainty
              fizzer_and_meter_sleeps fizzer_and_meter_scale tenth_nonneg)
    as (H1 & _ & H3 & _).
  exact (conj H1 H3).
Defined.

Lemma fizzy_class : class_at fizzy_fizzer_and_meter 1 = Some Fizzmeter.
Proof. sample. heap_done. Qed.

Lemma fizzy_fizzer : class_at fizzy_fizzer_and_meter 0 = Some Fizzer.
Proof. sample. heap_done. Qed.

Lemma fizzy_fizziness : attr fizzy_fizzer_and_meter 0 "fizziness" = Some (1 / 2).
Proof. sample. heap_done. Qed.

Lemma fizzy_delay : attr fizzy_fizzer_and_meter 1 "response_delay" = Some (1 / 2).
Proof. sample. heap_done. Qed.

Lemma fizzy_cal_time : attr fizzy_fizzer_and_meter 1 "cal_time" = Some 0.
Proof. sample. heap_done. Qed.

Lemma fizzy_bias : attr fizzy_fizzer_and_meter 1 "bias" = Some 0.
Proof. sample. heap_done. Qed.

Lemma fizzy_decal_rate :
  attr fizzy_fizzer_and_meter 1 "decal_rate" = Some (1 * day_sec).
Proof. sample. heap_done. Qed.

Lemma fizzy_uncertainty : attr fizzy_fizzer_and_meter 1 "uncertainty" = Some (1 / 10).
Proof. sample. heap_done. Qed.

Lemma fizzy_scale :
  0 <= (clock fizzy_fizzer_and_meter (ticks fizzy_fizzer_and_meter) - 0)
       * (1 * day_sec).
Proof.
  sample. autorewrite with tapes. cbn [clock ticks init].
  unfold seconds_clock, day_sec. cbn [INR]. lra.
Qed.

Lemma fizzy_sleeps : sleeps fizzy_fizzer_and_meter (1 / 2).
Proof.
  unfold sleeps. sample. autorewrite with tapes. cbn [os_sleep_max init].
  unfold sleep_max, day_up. lra.
Qed.

Lemma measure_reads_the_stored_field_witness :
  heap (final (Fizzmeter_measure 1 0) fizzy_fizzer_and_meter) !! 0%nat
  = heap fizzy_fizzer_and_meter !! 0%nat.
Proof.
  exact (proj2 (measure_reads_the_stored_field fizzy_fizzer_and_meter 1 0
                  (1 / 2) 0 0 (1 * day_sec) (1 / 10) (1 / 2)
                  fizzy_class fizzy_fizzer fizzy_fizziness fizzy_delay
                  fizzy_cal_time fizzy_bias fizzy_decal_rate fizzy_uncertainty
                  fizzy_sleeps fizzy_scale tenth_nonneg)).
Defined.

Lemma calibrated_meter_class : class_at calibrated_meter 0 = Some Fizzmeter.
Proof. sample. heap_done. Qed.

Lemma calibrated_meter_cal_delay : attr calibrated_meter 0 "cal_delay" = Some 1.
Proof. sample. heap_done. Qed.

Lemma calibrated_meter_bias : attr calibrated_meter 0 "bias" = Some 3.
Proof. sample. heap_done. Qed.

Lemma calibrated_meter_cal_time : attr calibrated_meter 0 "cal_time" = Some 1.
Proof. sample. heap_done. Qed.

Lemma calibrated_meter_decal_rate :
  attr calibrated_meter 0 "decal_rate" = Some (1 * day_sec).
Proof. sample. heap_done. Qed.

Lemma calibrated_meter_scale :
  (clock calibrated_meter (ticks calibrated_meter) - 1) * (1 * day_sec) = 0.
Proof.
  unfold drifted_meter. autorewrite with tapes. cbn [clock init]. ring.
Qed.

Lemma calibrated_meter_sleeps : sleeps calibrated_meter 1.
Proof.
  unfold sleeps, drifted_meter. autorewrite with tapes. cbn [os_sleep_max init].
  unfold sleep_max, day_up. lra.
Qed.

Lemma calibrate_without_drift_witness :
  attr (final (Fizzmeter_calibrate 0) calibrated_meter) 0 "bias" = Some 0.
Proof.
  exact (proj1 (proj2 (calibrate_without_drift calibrated_meter 0 1 3 1
                         (1 * day_sec) calibrated_meter_class
                         calibrated_meter_cal_delay calibrated_meter_bias
                         calibrated_meter_cal_time calibrated_meter_decal_rate
                         calibrated_meter_sleeps calibrated_meter_scale))).
Defined.

Lemma bar_carbonator : class_at carbonator_and_fizzer 0 = Some Carbonator.
Proof. sample. heap_done. Qed.

Lemma bar_uncertainty : attr carbonator_and_fizzer 0 "uncertainty" = Some (1 / 100).
Proof. sample. heap_done. Qed.

Lemma get_uncertainty_is_constant_witness :
  outcome (Carbonator_get_uncertainty 0) carbonator_and_fizzer = inr (1 / 100).
Proof.
  exact (proj1 (get_uncertainty_is_constant carbonator_and_fizzer 0 (1 / 100)
                  bar_carbonator bar_uncertainty)).
Defined.

Lemma receiver_is_the_fizzer : receiver (add_carbonation 1 2) <> Some 0%nat.
Proof. cbn. congruence. Qed.

Lemma call_changes_only_its_receiver_witness :
  exists o,
    heap carbonator_and_fizzer !! 0%nat = Some o /\
    heap (final (invoke (add_carbonation 1 2)) carbonator_and_fizzer) !! 0%nat
    = Some o.
Proof.
  destruct (class_at_lookup _ _ _ bar_carbonator) as (o & Ho & _).
  exists o. split; [exact Ho|].
  exact (call_changes_only_its_receiver carbonator_and_fizzer
           (add_carbonation 1 2) 0 o Ho receiver_is_the_fizzer).
Defined.

Lemma time_constant_not_mutable : ~ mutable "time_constant_sec".
Proof. unfold mutable. intros [H|[H|H]]; discriminate H. Qed.

Lemma configuration_is_fixed_witness :
  attr (final (invoke (get_carbonation 0)) new_fizzer) 0 "time_constant_sec"
  = Some (1 * day_sec).
Proof.
  exact (configuration_is_fixed new_fizzer (get_carbonation 0) 0
           "time_constant_sec" (1 * day_sec) time_constant_not_mutable
           new_fizzer_time_constant).
Defined.

Lemma one_Fizzer_from_time_source : Forall from_time_source [new_Fizzer 1 1].
Proof. apply Forall_cons. split; [exact I | apply Forall_nil_2]. Qed.

Lemma cal_time_is_a_reading_witness :
  exists j, (j < ticks new_fizzer)%nat /\ 0 = seconds_clock j.
Proof.
  exact (cal_time_is_a_reading seconds_clock unit_samples day_up [new_Fizzer 1 1] 0 0
           one_Fizzer_from_time_source new_fizzer_cal_time).
Defined.

Lemma read_only_decays_in_a_run_witness :
  exists v,
    outcome (Fizzer_get_carbonation 0) new_fizzer = inr v /\ 0 <= v <= 1.
Proof.
  exact (read_only_decays_in_a_run seconds_clock unit_samples day_up [new_Fizzer 1 1]
           0 1 (1 * day_sec) 0 seconds_clock_monotone
           one_Fizzer_from_time_source new_fizzer_carbonation
           new_fizzer_time_constant new_fizzer_cal_time day_sec_pos Rle_0_1).
Defined.

(** ** No run calibrates a Fizzmeter *)

#[global] Instance uncalibrated_meters_stable :
  Stable uncalibrated_meters (fun n => n <> "cal_time").
Proof.
  split; unfold uncalibrated_meters.
  - intros s H l. rewrite class_at_tick, attr_tick. apply H.
  - intros s H l. rewrite class_at_drew, attr_drew. apply H.
  - intros c s H l. rewrite class_at_allocate, attr_allocate.
    case_decide as Hl; [subst l; intros _; apply attr_fresh | apply H].
  - intros self n v s Hn H l. rewrite class_at_store, attr_store.
    rewrite decide_False by (intros [_ ?]; congruence). apply H.
Qed.

#[global] Instance of_class_stable c self :
  Stable (of_class c self) (fun n => n <> "cal_time").
Proof.
  split; unfold of_class.
  - intros s [H Hc]. split; [by apply stable_tick | done].
  - intros s [H Hc]. split; [by apply stable_drew | done].
  - intros c' s [H Hc]. split; [by apply stable_allocate|].
    rewrite class_at_allocate. case_decide as Hl; [|done].
    subst self. by rewrite class_at_fresh in Hc.
  - intros self' n v s Hn [H Hc]. split; [by apply stable_store|].
    by rewrite class_at_store.
Qed.

Lemma final_bind_inr {A B : Type} (m : M A) (f : A -> M B) s a s1 :
  m s = (inr a, s1) -> final (bind m f) s = final (f a) s1.
Proof. intros H. unfold final, bind. by rewrite H. Qed.

Lemma final_bind_inl {A B : Type} (m : M A) (f : A -> M B) s e s1 :
  m s = (inl e, s1) -> final (bind m f) s = s1.
Proof. intros H. unfold final, bind. by rewrite H. Qed.

Lemma uncalibrated_dispatch {A : Type} self (k : cls -> M A) :
  (forall c, preserves (of_class c self) (k c)) ->
  preserves uncalibrated_meters (bind (type_of self) k).
Proof.
  intros Hk s Hs.
  destruct (class_at s self) as [c|] eqn:Hc.
  - rewrite (final_bind_inr _ _ s c s) by by apply run_type_of.
    by apply (Hk c s).
  - rewrite (final_bind_inl _ _ s SystemError s); [done|].
    unfold class_at in Hc. unfold type_of. by destruct (heap s !! self).
Qed.

Lemma of_class_dispatch {A : Type} c self (k : cls -> M A) :
  preserves (of_class c self) (k c) ->
  preserves (of_class c self) (bind (type_of self) k).
Proof.
  intros Hk s Hs.
  rewrite (final_bind_inr _ _ s c s) by (apply run_type_of, Hs).
  by apply Hk.
Qed.

Lemma uncalibrated_new {A : Type} c (k : nat -> M A) :
  (forall self, preserves (of_class c self) (k self)) ->
  preserves uncalibrated_meters (bind (object_new c) k).
Proof.
  intros Hk s Hs.
  rewrite (final_bind_inr _ _ s (length (heap s)) (allocate c s)) by done.
  apply (Hk (length (heap s)) (allocate c s)).
  split; [by apply stable_allocate|].
  rewrite class_at_allocate. by rewrite decide_True.
Qed.

Lemma of_class_refresh c self t :
  c <> Fizzmeter -> preserves (of_class c self) (setattr self "cal_time" t).
Proof.
  intros Hc s [Hs Hself]. unfold final, setattr.
  destruct (heap s !! self); cbn [snd]; [|done].
  split; [|by rewrite class_at_store].
  intros l Hl. rewrite class_at_store in Hl. rewrite attr_store.
  rewrite decide_False; [by apply Hs|]. intros [-> _]. congruence.
Qed.

Lemma meter_read_raises {A : Type} self (k : R -> M A) :
  preserves (of_class Fizzmeter self) (bind (getattr self "cal_time") k).
Proof.
  intros s Hs.
  rewrite (final_bind_inl _ _ s AttributeError s); [done|].
  destruct Hs as [Hs Hself].
  apply (run_getattr_missing s self "cal_time" Fizzmeter); auto.
Qed.

Ltac uncalibrated_step :=
  lazymatch goal with
  | |- preserves uncalibrated_meters (bind (object_new _) _) =>
      apply uncalibrated_new; intros
  | |- preserves uncalibrated_meters (bind (type_of _) _) =>
      apply uncalibrated_dispatch; intros
  | |- preserves (of_class _ _) (bind (type_of _) _) => apply of_class_dispatch
  | |- preserves (of_class Fizzmeter _) (bind (getattr _ "cal_time") _) =>
      apply meter_read_raises
  | |- preserves _ (bind _ _) => apply preserves_bind; [|intros]
  | |- preserves _ (ret _) => apply preserves_ret
  | |- preserves _ (raise _) => apply preserves_raise
  | |- preserves _ (getattr _ _) => apply preserves_getattr
  | |- preserves _ (type_of _) => apply preserves_type_of
  | |- preserves _ (truediv _ _) => apply preserves_truediv
  | |- preserves _ (time_sleep _) => apply preserves_time_sleep
  | |- preserves (of_class _ _) (setattr _ "cal_time" _) =>
      apply of_class_refresh; first [discriminate | congruence]
  | |- preserves _ (setattr _ _ _) =>
      eapply preserves_setattr; [tc_solve | cbv beta; discriminate]
  | |- preserves _ time_time => eapply preserves_time_time; tc_solve
  | |- preserves _ (np_random_normal _ _) => eapply preserves_normal; tc_solve
  | |- preserves _ (if decide _ then _ else _) => case_decide; subst
  | |- preserves _ (match ?c with _ => _ end) =>
      first [is_var c; destruct c | progress cbv beta iota]
  | |- _ => first [progress cbv beta | progress autounfold with methods]
  end.

Ltac uncalibrated := repeat uncalibrated_step.

Lemma uncalibrated_invoke call : preserves uncalibrated_meters (invoke call).
Proof. destruct call; uncalibrated. Qed.

Lemma run_uncalibrated prog s :
  uncalibrated_meters s -> uncalibrated_meters (run prog s).
Proof.
  revert s. induction prog as [|call prog IH]; intros s Hs; [done|].
  rewrite run_cons. by apply IH, uncalibrated_invoke.
Qed.

Lemma uncalibrated_init clock0 samples limit : uncalibrated_meters (init clock0 samples limit).
Proof. by intros l. Qed.

(** X21.  In a run from the empty heap, whatever its calls, no Fizzmeter ever has
    a [cal_time]: the constructor leaves the instance without one, and no
    method can give it one. *)
Theorem no_run_calibrates_a_meter clock0 samples limit prog l :
  class_at (run prog (init clock0 samples limit)) l = Some Fizzmeter ->
  attr (run prog (init clock0 samples limit)) l "cal_time" = None.
Proof.
  apply run_uncalibrated, uncalibrated_init.
Qed.

Lemma method_of_other s c c' self (m : M value) :
  class_at s self = Some c' -> c' <> c ->
  method_of c self m s = (inl AttributeError, s).
Proof.
  intros Hc Hne. unfold method_of.
  rewrite (run_bind _ _ s c' s) by by apply run_type_of.
  by rewrite decide_False.
Qed.

Lemma method_of_dangling s c self (m : M value) :
  class_at s self = None -> method_of c self m s = (inl SystemError, s).
Proof.
  intros Hc. unfold method_of, bind, type_of, class_at in *.
  by destruct (heap s !! self).
Qed.

Lemma method_of_same s c self (m : M value) :
  class_at s self = Some c -> method_of c self m s = m s.
Proof.
  intros Hc. unfold method_of.
  rewrite (run_bind _ _ s c s) by by apply run_type_of.
  by rewrite decide_True.
Qed.

Lemma uncalibrated_measure s self fizzer :
  class_at s self = Some Fizzmeter ->
  attr s self "cal_time" = None ->
  exists e s', Fizzmeter_measure self fizzer s = (inl e, s').
Proof.
  intros Hc Ht.
  destruct (attr s self "response_delay") as [rd|] eqn:Hrd;
    [|do 2 eexists; run].
  destruct (sleep_cases s rd) as [?|(e & ? & _)]; do 2 eexists; run.
Qed.

Lemma uncalibrated_calibrate s self :
  class_at s self = Some Fizzmeter ->
  attr s self "cal_time" = None ->
  exists e s', Fizzmeter_calibrate self s = (inl e, s').
Proof.
  intros Hc Ht.
  destruct (attr s self "cal_delay") as [d|] eqn:Hd;
    [|do 2 eexists; run].
  destruct (sleep_cases s d) as [?|(e & ? & _)]; do 2 eexists; run.
Qed.

Lemma uncalibrated_refresh s self :
  class_at s self = Some Fizzmeter ->
  attr s self "cal_time" = None ->
  exists e s', call_refresh self s = (inl e, s').
Proof. intros Hc Ht. do 2 eexists. run. Qed.

(** X22.  No run from the empty heap ever gets a measurement, or a calibration:
    whatever the calls made before, and on whatever instances, [measure] and
    [calibrate] raise, and so does [refresh] on a Fizzmeter. *)
Theorem no_run_ever_measures clock0 samples limit prog self fizzer :
  (exists e, outcome (invoke (measure self fizzer)) (run prog (init clock0 samples limit))
             = inl e) /\
  (exists e, outcome (invoke (calibrate self)) (run prog (init clock0 samples limit))
             = inl e) /\
  (class_at (run prog (init clock0 samples limit)) self = Some Fizzmeter ->
   exists e, outcome (invoke (refresh self)) (run prog (init clock0 samples limit))
             = inl e).
Proof.
  pose proof (run_uncalibrated prog _ (uncalibrated_init clock0 samples limit)) as Hrun.
  set (s := run prog (init clock0 samples limit)) in *.
  unfold outcome, invoke.
  destruct (class_at s self) as [c|] eqn:Hc.
  2:{ rewrite !method_of_dangling by done. cbn [fst].
      split; [by eexists|]. split; [by eexists | done]. }
  destruct (decide (c = Fizzmeter)) as [->|Hne].
  2:{ rewrite !(method_of_other s Fizzmeter c) by done. cbn [fst].
      split; [by eexists|]. split; [by eexists | congruence]. }
  pose proof (Hrun self Hc) as Ht.
  rewrite !method_of_same by done. unfold returning_number, returning_None.
  destruct (uncalibrated_measure s self fizzer Hc Ht) as (e1 & s1 & H1).
  destruct (uncalibrated_calibrate s self Hc Ht) as (e2 & s2 & H2).
  destruct (uncalibrated_refresh s self Hc Ht) as (e3 & s3 & H3).
  rewrite (run_bind_raise _ _ _ _ _ H1), (run_bind_raise _ _ _ _ _ H2),
    (run_bind_raise _ _ _ _ _ H3). cbn [fst].
  split; [by eexists|]. split; [by eexists | by eexists].
Qed.

Lemma no_run_calibrates_a_meter_witness :
  attr fizzer_and_negative_meter 1 "cal_time" = None.
Proof.
  exact (no_run_calibrates_a_meter seconds_clock unit_samples day_up
           [new_Fizzer 1 1; new_Fizzmeter (-1) (1 / 10) 1] 1
           fizzer_and_negative_meter_class).
Defined.

(** ** A Fizzer decays from its construction *)

(** X8.  The first read of a Fizzer made with a time constant other than 0
    returns the carbonation it was given, decayed over the time between the
    reading of the clock in the constructor and the reading of the read,
    with the time constant in days turned into seconds. *)
Theorem new_Fizzer_then_read s carbonation time_constant_days :
  time_constant_days <> 0 ->
  outcome (Fizzer_get_carbonation (length (heap s)))
          (final (invoke (new_Fizzer carbonation time_constant_days)) s)
  = inr (carbonation
         * exp (- (clock s (S (ticks s)) - clock s (ticks s))
                / (time_constant_days * 86400))).
Proof.
  intros Hd. unfold outcome, final. rewrite run_new_Fizzer. cbn [snd].
  erewrite run_get_carbonation; [ | heap_done.. | unfold day_sec; lra].
  cbn [fst]. autorewrite with tapes. unfold day_sec.
  replace (60 * 60 * 24) with 86400 by lra. reflexivity.
Qed.

Lemma new_Fizzer_then_read_witness :
  outcome (Fizzer_get_carbonation 0) day_old_fizzer
  = inr (1 * exp (- (days_clock 1 - days_clock 0) / (1 * 86400))).
Proof.
  exact (new_Fizzer_then_read (init days_clock unit_samples day_up) 1 1 R1_neq_R0).
Defined.

Lemma no_run_ever_measures_witness :
  exists e, outcome (invoke (refresh 1)) fizzer_and_negative_meter = inl e.
Proof.
  exact (proj2 (proj2 (no_run_ever_measures seconds_clock unit_samples day_up
                         [new_Fizzer 1 1; new_Fizzmeter (-1) (1 / 10) 1] 1 0))
               fizzer_and_negative_meter_class).
Defined.
